(** * Conversor PDF a Word: a shallow embedding of [app.py]

    The script is a Streamlit page.  Its own logic is the page-range parser
    [parse_page_range], the two conversion strategies [convert_digital] and
    [convert_ocr], the dependency check that enables or disables the OCR
    mode, and the dispatch on the selected mode.  Everything else is a call
    into a library.  What Streamlit displays and the calls to the three
    conversion tools (pdf2docx, pdf2image, pytesseract) are kept as events
    of a trace; what the tools return, or raise, is supplied by the
    environment.  python-docx builds the document in memory: it is modelled
    by the document it builds, and the environment says which texts it
    accepts and which it refuses by raising.

    Conventions of the embedding:
    - a Python [str] is a [string] whose characters are code points below
      256 (so an accented letter is one character); text with code points
      from 256 on lies outside the model;
    - a Python [int] is a [Z];
    - a Python [set] of integers is a [gset Z];
    - an exception is a value of [exn]; a computation that displays
      widgets, calls libraries and may raise is a value of [M]. *)

From Stdlib Require Import ZArith Lia Ascii String DecimalString DecimalPos.
From stdpp Require Import base decidable option list list_numbers sorting gmap strings.

Local Open Scope Z_scope.
Set Warnings "-clear-no-such-hyp".

(** ** Python strings *)

Module PyStr.

Definition code (c : ascii) : Z := Z.of_nat (nat_of_ascii c).

(** [c in s] for a one-character [c]. *)
Fixpoint contains_char (c : ascii) (s : string) : bool :=
  match s with
  | EmptyString => false
  | String d s' => if Ascii.eqb d c then true else contains_char c s'
  end.

(** [s.split(sep)] for a one-character separator: never an empty list,
    [n] separators give [n + 1] pieces, empty pieces are kept. *)
Fixpoint split (sep : ascii) (s : string) : list string :=
  match s with
  | EmptyString => [EmptyString]
  | String c s' =>
      let rest := split sep s' in
      if Ascii.eqb c sep then EmptyString :: rest
      else match rest with
           | [] => [String c EmptyString]
           | piece :: pieces => String c piece :: pieces
           end
  end.

Fixpoint starts_with (p s : string) : bool :=
  match p, s with
  | EmptyString, _ => true
  | String _ _, EmptyString => false
  | String a p', String b s' => Ascii.eqb a b && starts_with p' s'
  end.

(** [needle in hay]. *)
Fixpoint contains (needle hay : string) : bool :=
  starts_with needle hay ||
  match hay with
  | EmptyString => false
  | String _ hay' => contains needle hay'
  end.

(** [sep.join(pieces)]. *)
Fixpoint join (sep : string) (pieces : list string) : string :=
  match pieces with
  | [] => EmptyString
  | [p] => p
  | p :: ps => p +:+ sep +:+ join sep ps
  end.

(** [str(n)] for an integer. *)
Definition of_Z (n : Z) : string := NilZero.string_of_int (Z.to_int n).

(** [str(l)] for a list of integers, as an f-string prints it. *)
Definition of_list (l : list Z) : string :=
  "[" +:+ join ", " (of_Z <$> l) +:+ "]".

(** Letters of the messages that are not ASCII. *)
Definition a_acute : string := String (ascii_of_nat 225) EmptyString.
Definition i_acute : string := String (ascii_of_nat 237) EmptyString.
Definition o_acute : string := String (ascii_of_nat 243) EmptyString.
Definition inverted_bang : string := String (ascii_of_nat 161) EmptyString.

End PyStr.

(** ** [int(s)] on a string

    As CPython reads a decimal literal: white space, an optional sign, digits
    that single underscores may separate, white space, and nothing else.
    The white space of a [str] argument is the ASCII white space together
    with the two non-ASCII space characters below 256, U+0085 and U+00A0;
    the separators U+001C to U+001F are not accepted.  [None] stands for
    the [ValueError]. *)

Module PyInt.
Import PyStr.

Definition is_space (c : ascii) : bool :=
  let n := code c in
  ((9 <=? n) && (n <=? 13)) || (n =? 32) || (n =? 133) || (n =? 160).

Definition digit_value (c : ascii) : option Z :=
  let n := code c in
  if (48 <=? n) && (n <=? 57) then Some (n - 48) else None.

Fixpoint skip_spaces (s : string) : string :=
  match s with
  | String c s' => if is_space c then skip_spaces s' else s
  | EmptyString => EmptyString
  end.

Fixpoint all_spaces (s : string) : bool :=
  match s with
  | String c s' => is_space c && all_spaces s'
  | EmptyString => true
  end.

(** The scan of the digits: [acc] is the value so far, [n] the number of
    digits seen, [prev_us] whether the previous character was an
    underscore.  The result carries what follows the digits. *)
Fixpoint scan_digits (acc : Z) (n : nat) (prev_us : bool) (s : string)
  : option (Z * nat * string) :=
  match s with
  | EmptyString => if prev_us then None else Some (acc, n, EmptyString)
  | String c s' =>
      match digit_value c with
      | Some d => scan_digits (10 * acc + d) (S n) false s'
      | None =>
          if Ascii.eqb c "_" then
            if prev_us then None else scan_digits acc n true s'
          else
            if prev_us then None else Some (acc, n, s)
      end
  end.

Definition starts_with_underscore (s : string) : bool :=
  match s with
  | String c _ => Ascii.eqb c "_"
  | EmptyString => false
  end.

(** The interpreter refuses a literal of more than [max_str_digits]
    digits (4300 unless configured otherwise; 0 switches the limit off;
    literals of up to 640 digits are never refused). *)
Definition too_many_digits (max_str_digits n : nat) : bool :=
  (640 <? n)%nat && (0 <? max_str_digits)%nat && (max_str_digits <? n)%nat.

Definition unsigned (max_str_digits : nat) (s : string) : option Z :=
  if starts_with_underscore s then None
  else match scan_digits 0 0 false s with
       | Some (v, n, rest) =>
           if (n =? 0)%nat then None
           else if negb (all_spaces rest) then None
           else if too_many_digits max_str_digits n then None
           else Some v
       | None => None
       end.

Definition int (max_str_digits : nat) (s : string) : option Z :=
  match skip_spaces s with
  | String c s' =>
      if Ascii.eqb c "+" then unsigned max_str_digits s'
      else if Ascii.eqb c "-" then Z.opp <$> unsigned max_str_digits s'
      else unsigned max_str_digits (String c s')
  | EmptyString => None
  end.

End PyInt.

(** ** Effects: what the page shows, which libraries it calls, what it raises *)

Definition bytes := list Byte.byte.

(** A rasterised page, a PIL image, kept as the data it holds. *)
Definition image := bytes.

Inductive place := Page | Sidebar.

Inductive kind := Header | Success | Error | Info | Warning | Text | Markdown.

Inductive event :=
  (** [st.error(text)], [st.sidebar.info(text)] and the like *)
  | Show (w : place) (k : kind) (text : string)
  (** [st.sidebar.radio(label, options=..., index=..., disabled=...)] *)
  | Radio (label : string) (options : list string) (index : nat) (disabled : bool)
  (** [st.sidebar.selectbox(label, options, help=...)] *)
  | Selectbox (label : string) (options : list string) (help : string)
  (** [st.download_button(label=..., data=..., file_name=..., mime=...)] *)
  | DownloadButton (label : string) (data : bytes) (file_name mime : string)
  (** pdf2docx: [Converter(stream)], [convert(out, pages=...)], [close()] *)
  | CallPdf2Docx (pdf : bytes) (pages : list Z)
  (** pdf2image: [convert_from_bytes(pdf, fmt="jpeg", thread_count=4,
      first_page=..., last_page=...)] *)
  | CallPdf2Image (pdf : bytes) (first_page last_page : Z)
  (** pytesseract: [image_to_string(img, lang=...)] *)
  | CallTesseract (img : image) (lang : string).

Inductive exn :=
  | ValueError
  | NameError
  | LibraryError (detail : string).

Inductive outcome (A : Type) :=
  | Returns (a : A)
  | Raises (e : exn).
Arguments Returns {A} a.
Arguments Raises {A} e.

(** A computation: the events it produced, in order, and how it ended. *)
Definition M (A : Type) : Type := list event * outcome A.

Definition ret {A} (a : A) : M A := ([], Returns a).

Definition raise {A} (e : exn) : M A := ([], Raises e).

Definition emit (ev : event) : M unit := ([ev], Returns tt).

Definition bind {A B} (m : M A) (k : A -> M B) : M B :=
  match m with
  | (tr, Returns a) => let (tr', r) := k a in (tr ++ tr', r)
  | (tr, Raises e) => (tr, Raises e)
  end.

Notation "'let*' x ':=' m 'in' k" := (bind m (fun x => k))
  (at level 10, x name, m at level 100, k at level 200).
Notation "m ;;; k" := (bind m (fun _ => k))
  (at level 100, k at level 200, right associativity).

Definition show (w : place) (k : kind) (text : string) : M unit :=
  emit (Show w k text).

(** The document python-docx builds, paragraph by paragraph. *)
Inductive block :=
  | Heading (text : string) (level : Z)
  | Paragraph (text : string)
  | PageBreak.

Definition document := list block.

(** ** The environment: the interpreter's setting and the libraries *)

Record environment := {
  (** [sys.get_int_max_str_digits()] *)
  max_str_digits : nat;
  (** [shutil.which(name)] *)
  which : string -> option string;
  (** what pdf2docx writes for the selected pages *)
  pdf2docx : bytes -> list Z -> outcome bytes;
  (** the images pdf2image returns for [first_page .. last_page] *)
  convert_from_bytes : bytes -> Z -> Z -> outcome (list image);
  (** [pytesseract.image_to_string(img, lang=...)] *)
  image_to_string : image -> string -> outcome string;
  (** python-docx writing a text into a paragraph, as [add_heading] and
      [add_paragraph] do: it returns, or raises on a text that cannot be
      written to XML, such as one with a control character *)
  docx_text : string -> outcome unit;
  (** [doc.save(stream); stream.getvalue()] *)
  docx_save : document -> bytes;
  (** [os.path.splitext(name)[0]] *)
  splitext_root : string -> string
}.

Definition call_pdf2docx (E : environment) (pdf : bytes) (pages : list Z) : M bytes :=
  ([CallPdf2Docx pdf pages], pdf2docx E pdf pages).

Definition call_pdf2image (E : environment) (pdf : bytes) (first_page last_page : Z)
  : M (list image) :=
  ([CallPdf2Image pdf first_page last_page], convert_from_bytes E pdf first_page last_page).

Definition call_tesseract (E : environment) (img : image) (lang : string) : M string :=
  ([CallTesseract img lang], image_to_string E img lang).

(** ** Python built-ins on integers *)

(** [range(a, b)] as a list. *)
Definition py_range (a b : Z) : list Z := seqZ a (b - a).

Definition minimum (l : list Z) : option Z :=
  match l with
  | [] => None
  | x :: l' => Some (foldl Z.min x l')
  end.

Definition maximum (l : list Z) : option Z :=
  match l with
  | [] => None
  | x :: l' => Some (foldl Z.max x l')
  end.

(** [min(l)] and [max(l)]: a [ValueError] on the empty list. *)
Definition py_min (l : list Z) : M Z :=
  match minimum l with
  | Some m => ret m
  | None => raise ValueError
  end.

Definition py_max (l : list Z) : M Z :=
  match maximum l with
  | Some m => ret m
  | None => raise ValueError
  end.

(** [sorted(list(pages))] *)
Definition py_sorted (pages : gset Z) : list Z := merge_sort Z.le (elements pages).

(** ** 3. Funciones de conversion: [parse_page_range] *)

Definition msg_invalid_range : string :=
  "Rango de p" +:+ PyStr.a_acute +:+ "ginas inv" +:+ PyStr.a_acute +:+
  "lido. Usando todas las p" +:+ PyStr.a_acute +:+ "ginas.".

(** [start, end = map(int, pieces)]: the two conversions in order, then the
    check that nothing is left (a third piece is converted first and raises
    either way).  [None] stands for the [ValueError]. *)
Definition unpack_two_ints (E : environment) (pieces : list string) : option (Z * Z) :=
  match PyInt.int (max_str_digits E) <$> pieces with
  | [Some start; Some end_] => Some (start, end_)
  | _ => None
  end.

(** The body of the loop over the parts: the set after this part, or [None]
    when the part raises. *)
Definition parse_part (E : environment) (max_pages : Z) (pages : gset Z) (part : string)
  : option (gset Z) :=
  if PyStr.contains_char "-" part then
    match unpack_two_ints E (PyStr.split "-" part) with
    | Some (start, end_) =>
        if (0 <? start) && (end_ <=? max_pages) && (start <=? end_)
        then Some (pages ∪ list_to_set (py_range (start - 1) end_))
        else Some pages
    | None => None
    end
  else
    match PyInt.int (max_str_digits E) part with
    | Some page =>
        if (0 <? page) && (page <=? max_pages)
        then Some (pages ∪ {[ page - 1 ]})
        else Some pages
    | None => None
    end.

Fixpoint parse_parts (E : environment) (max_pages : Z) (pages : gset Z) (parts : list string)
  : option (gset Z) :=
  match parts with
  | [] => Some pages
  | part :: parts' =>
      match parse_part E max_pages pages part with
      | Some pages' => parse_parts E max_pages pages' parts'
      | None => None
      end
  end.

Definition parse_page_range (E : environment) (range_str : string) (max_pages : Z)
  : M (list Z) :=
  match range_str with
  | EmptyString => ret (py_range 0 max_pages)
  | _ =>
      match parse_parts E max_pages ∅ (PyStr.split "," range_str) with
      | Some pages => ret (py_sorted pages)
      | None =>
          show Page Error msg_invalid_range ;;;
          ret (py_range 0 max_pages)
      end
  end.

(** ** 3. Funciones de conversion: [convert_digital] and [convert_ocr] *)

Definition convert_digital (E : environment) (pdf_bytes : bytes) (pages_to_convert : list Z)
  : M bytes :=
  call_pdf2docx E pdf_bytes pages_to_convert.

Definition msg_using_ocr (lang_code : string) : string :=
  "Usando OCR en idioma: " +:+ lang_code +:+ ". Esto tomar" +:+ PyStr.a_acute +:+
  " un momento...".

Definition msg_ocr_note : string :=
  "Nota de OCR: Se procesar" +:+ PyStr.a_acute +:+ "n las p" +:+ PyStr.a_acute +:+
  "ginas en el rango continuo de tu selecci" +:+ PyStr.o_acute +:+
  "n (ej: 1, 5 se procesa como 1-5).".

Definition ocr_title (lang_code : string) : string :=
  "Documento Convertido por OCR (" +:+ lang_code +:+ ")".

Definition msg_processing (page_num : Z) : string :=
  "Procesando p" +:+ PyStr.a_acute +:+ "gina " +:+ PyStr.of_Z page_num +:+ "...".

Definition page_heading (page_num : Z) : string :=
  "--- P" +:+ PyStr.a_acute +:+ "gina " +:+ PyStr.of_Z page_num +:+ " ---".

(** [doc.add_heading(text, level)], [doc.add_paragraph(text)] and
    [doc.add_page_break()] on the document built so far. *)
Definition add_heading (E : environment) (doc : document) (text : string) (level : Z)
  : M document :=
  ([], docx_text E text) ;;; ret (doc ++ [Heading text level]).

Definition add_paragraph (E : environment) (doc : document) (text : string) : M document :=
  ([], docx_text E text) ;;; ret (doc ++ [Paragraph text]).

Definition add_page_break (doc : document) : document := doc ++ [PageBreak].

(** python-docx takes the heading and the text of a page. *)
Definition page_accepted (E : environment) (page_num : Z) (text : string) : Prop :=
  docx_text E (page_heading page_num) = Returns tt /\ docx_text E text = Returns tt.

(** The page [page_num], of image [img], makes the loop raise [e]: the OCR
    engine raises it, or python-docx does on the heading or on the text. *)
Definition page_fails (E : environment) (lang_code : string) (page_num : Z) (img : image)
    (e : exn) : Prop :=
  image_to_string E img lang_code = Raises e \/
  exists text, image_to_string E img lang_code = Returns text /\
    (docx_text E (page_heading page_num) = Raises e \/
     (docx_text E (page_heading page_num) = Returns tt /\ docx_text E text = Raises e)).

(** [for i, img in enumerate(images)], from index [i] on. *)
Fixpoint ocr_loop (E : environment) (lang_code : string) (pages_1_indexed : list Z)
    (i : Z) (images : list image) (doc : document) : M document :=
  match images with
  | [] => ret doc
  | img :: images' =>
      let* first := py_min pages_1_indexed in
      let page_num := i + first in
      show Page Text (msg_processing page_num) ;;;
      let* text := call_tesseract E img lang_code in
      let* doc := add_heading E doc (page_heading page_num) 3 in
      let* doc := add_paragraph E doc text in
      ocr_loop E lang_code pages_1_indexed (i + 1) images' (add_page_break doc)
  end.

Definition convert_ocr (E : environment) (pdf_bytes : bytes) (lang_code : string)
    (pages_to_convert : list Z) : M bytes :=
  show Page Info (msg_using_ocr lang_code) ;;;
  let pages_1_indexed := (fun p => p + 1) <$> pages_to_convert in
  let* first_page := py_min pages_1_indexed in
  let* last_page := py_max pages_1_indexed in
  let* images := call_pdf2image E pdf_bytes first_page last_page in
  show Page Warning msg_ocr_note ;;;
  let doc := [] in
  let* doc := add_heading E doc (ocr_title lang_code) 0 in
  let* doc := ocr_loop E lang_code pages_1_indexed 0 images doc in
  ret (docx_save E doc).

(** ** 1. Chequeo de dependencias, 2. Opciones de conversion *)

Definition msg_install (what : string) : string :=
  "Instala " +:+ what +:+ " en tu sistema para habilitar la conversi" +:+ PyStr.o_acute +:+
  "n de PDFs escaneados.".

Definition is_not_none {A} (o : option A) : bool :=
  match o with
  | Some _ => true
  | None => false
  end.

(** Lines 38 to 52: the two look-ups and what the sidebar says of each. *)
Definition system_check (E : environment) : M (bool * bool) :=
  show Sidebar Header "Estado del Sistema (OCR)" ;;;
  let tesseract_ok := is_not_none (which E "tesseract") in
  let poppler_ok := is_not_none (which E "pdftoppm") in
  (if tesseract_ok then show Sidebar Success "Tesseract (OCR) detectado."
   else (show Sidebar Error "Tesseract NO encontrado." ;;;
         show Sidebar Info (msg_install "Tesseract-OCR"))) ;;;
  (if poppler_ok then show Sidebar Success "Poppler (PDF) detectado."
   else (show Sidebar Error "Poppler NO encontrado." ;;;
         show Sidebar Info (msg_install "Poppler"))) ;;;
  ret (tesseract_ok, poppler_ok).

Definition label_digital : string :=
  "Digital (Formato perfecto, r" +:+ PyStr.a_acute +:+ "pido)".

Definition label_escaneado : string :=
  "Escaneado (OCR, m" +:+ PyStr.a_acute +:+ "s lento)".

Definition mode_options : list string := [label_digital; label_escaneado].

Definition msg_ocr_disabled : string :=
  "Modo OCR deshabilitado. Ver 'Estado del Sistema'.".

(** Lines 56 to 69.  [answer] is what the radio widget returns for this run
    of the script, one of its options. *)
Definition mode_selector (tesseract_ok poppler_ok : bool) (answer : string) : M string :=
  show Sidebar Header ("Opciones de Conversi" +:+ PyStr.o_acute +:+ "n") ;;;
  let ocr_disabled := negb (tesseract_ok && poppler_ok) in
  (if ocr_disabled then show Sidebar Warning msg_ocr_disabled else ret tt) ;;;
  emit (Radio "Selecciona el tipo de PDF:" mode_options 0 ocr_disabled) ;;;
  ret answer.

(** Lines 72 to 76.  [lang_answer] is what the select box returns. *)
Definition ocr_options (modo_conversion lang_answer : string) : M string :=
  if PyStr.contains "Escaneado" modo_conversion then
    show Sidebar Markdown "### Opciones de OCR" ;;;
    emit (Selectbox "Idioma del documento:" ["spa"; "eng"]%string
            ("'spa' = Espa" +:+ String (ascii_of_nat 241) EmptyString +:+
             "ol, 'eng' = Ingl" +:+ String (ascii_of_nat 233) EmptyString +:+ "s")) ;;;
    ret lang_answer
  else ret "spa"%string.

(** Lines 38 to 76: the sidebar, giving [modo_conversion] and [lang]. *)
Definition sidebar (E : environment) (answer lang_answer : string) : M (string * string) :=
  let* oks := system_check E in
  let* modo_conversion := mode_selector (fst oks) (snd oks) answer in
  let* lang := ocr_options modo_conversion lang_answer in
  ret (modo_conversion, lang).

(** ** 4. Logica principal: the conversion request *)

Definition msg_start_digital : string :=
  "Iniciando conversi" +:+ PyStr.o_acute +:+ "n digital...".

Definition msg_start_ocr : string :=
  "Iniciando conversi" +:+ PyStr.o_acute +:+ "n OCR...".

(** Lines 209 to 215: the strategy for the selected mode; [None] when
    neither branch ran and [docx_bytes] stays unbound. *)
Definition run_selected_mode (E : environment) (modo_conversion : string)
    (pdf_bytes : bytes) (lang : string) (pages_list : list Z) : M (option bytes) :=
  if PyStr.contains "Digital" modo_conversion then
    show Page Info msg_start_digital ;;;
    let* docx_bytes := convert_digital E pdf_bytes pages_list in
    ret (Some docx_bytes)
  else if PyStr.contains "Escaneado" modo_conversion then
    show Page Info msg_start_ocr ;;;
    let* docx_bytes := convert_ocr E pdf_bytes lang pages_list in
    ret (Some docx_bytes)
  else ret None.

Definition msg_pages (pages_list : list Z) : string :=
  "Procesando p" +:+ PyStr.a_acute +:+ "ginas (" +:+ PyStr.i_acute +:+ "ndice 0): " +:+
  PyStr.of_list pages_list.

Definition msg_success : string :=
  PyStr.inverted_bang +:+ "Conversi" +:+ PyStr.o_acute +:+ "n exitosa!".

Definition docx_mime : string :=
  "application/vnd.openxmlformats-officedocument.wordprocessingml.document".

(** Lines 217 to 225: what follows the strategy. *)
Definition offer_download (E : environment) (file_name : string) (docx_bytes : option bytes)
  : M unit :=
  show Page Success msg_success ;;;
  let base_filename := splitext_root E file_name in
  match docx_bytes with
  | Some data =>
      emit (DownloadButton "Descargar archivo Word (.docx)" data
              (base_filename +:+ "_convertido.docx") docx_mime)
  | None => raise NameError
  end.

(** Lines 195 to 225, the body of the [try] run when the button is
    pressed.  The handler around it displays whatever it raises. *)
Definition conversion_request (E : environment) (file_name : string) (pdf_bytes : bytes)
    (page_range_str modo_conversion lang : string) : M unit :=
  let* pages_list := parse_page_range E page_range_str 500 in
  match pages_list with
  | [] => show Page Error ("Rango de p" +:+ PyStr.a_acute +:+ "ginas no v" +:+
                           PyStr.a_acute +:+ "lido o vac" +:+ PyStr.i_acute +:+ "o.")
  | _ =>
      show Page Text (msg_pages pages_list) ;;;
      let* docx_bytes := run_selected_mode E modo_conversion pdf_bytes lang pages_list in
      offer_download E file_name docx_bytes
  end.

(** ** Tokens of a page range *)

(** A single 1-based page number, or an inclusive 1-based range. *)
Inductive token :=
  | Single (page : Z)
  | Span (start end_ : Z).

(** How the loop body reads a part: as a range when it holds a dash, as a
    single number otherwise; [None] when the part raises. *)
Definition read_token (E : environment) (part : string) : option token :=
  if PyStr.contains_char "-" part then
    match unpack_two_ints E (PyStr.split "-" part) with
    | Some (start, end_) => Some (Span start end_)
    | None => None
    end
  else Single <$> PyInt.int (max_str_digits E) part.

(** The test the loop body makes before it adds pages. *)
Definition passes_guard (max_pages : Z) (tok : token) : bool :=
  match tok with
  | Single page => (0 <? page) && (page <=? max_pages)
  | Span start end_ => (0 <? start) && (end_ <=? max_pages) && (start <=? end_)
  end.

(** A token within the document: [1 <= k <= max_pages], or
    [1 <= a <= b <= max_pages]. *)
Definition valid_token (max_pages : Z) (tok : token) : Prop :=
  match tok with
  | Single k => 1 <= k <= max_pages
  | Span a b => 1 <= a /\ a <= b /\ b <= max_pages
  end.

(** The 0-indexed pages a token stands for: [{k-1}], or [{a-1, ..., b-1}]. *)
Definition token_pages (tok : token) : list Z :=
  match tok with
  | Single k => [k - 1]
  | Span a b => seqZ (a - 1) (b - a + 1)
  end.

(** What a token adds to the set of pages. *)
Definition contribution (max_pages : Z) (tok : token) : gset Z :=
  if passes_guard max_pages tok then list_to_set (token_pages tok) else ∅.

(** [text] writes the token: no comma in it (it is one piece of the
    comma-separated input) and either no dash and a numeral of [k], or
    one dash between a numeral of [a] and a numeral of [b]. *)
Definition writes (E : environment) (tok : token) (text : string) : bool :=
  negb (PyStr.contains_char "," text) &&
  match tok with
  | Single k =>
      negb (PyStr.contains_char "-" text) &&
      bool_decide (PyInt.int (max_str_digits E) text = Some k)
  | Span a b =>
      match PyStr.split "-" text with
      | [sa; sb] =>
          bool_decide (PyInt.int (max_str_digits E) sa = Some a) &&
          bool_decide (PyInt.int (max_str_digits E) sb = Some b)
      | _ => false
      end
  end.

(** The plain way to write a token: decimal numerals, no spaces. *)
Definition token_text (tok : token) : string :=
  match tok with
  | Single k => PyStr.of_Z k
  | Span a b => PyStr.of_Z a +:+ "-" +:+ PyStr.of_Z b
  end.

(** The value of a decimal numeral read from the left, [acc] being the
    value of the digits already read. *)
Fixpoint numeral_value (acc : Z) (d : Decimal.uint) : Z :=
  match d with
  | Decimal.Nil => acc
  | Decimal.D0 d' => numeral_value (10 * acc + 0) d'
  | Decimal.D1 d' => numeral_value (10 * acc + 1) d'
  | Decimal.D2 d' => numeral_value (10 * acc + 2) d'
  | Decimal.D3 d' => numeral_value (10 * acc + 3) d'
  | Decimal.D4 d' => numeral_value (10 * acc + 4) d'
  | Decimal.D5 d' => numeral_value (10 * acc + 5) d'
  | Decimal.D6 d' => numeral_value (10 * acc + 6) d'
  | Decimal.D7 d' => numeral_value (10 * acc + 7) d'
  | Decimal.D8 d' => numeral_value (10 * acc + 8) d'
  | Decimal.D9 d' => numeral_value (10 * acc + 9) d'
  end.

(** An endpoint brought into [[1, max_pages]]. *)
Definition clamp (max_pages x : Z) : Z := Z.max 1 (Z.min max_pages x).

Definition clamp_token (max_pages : Z) (tok : token) : token :=
  match tok with
  | Single k => Single (clamp max_pages k)
  | Span a b => Span (clamp max_pages a) (clamp max_pages b)
  end.

(** ** An environment to run examples in *)

(** A text without the control characters XML has no place for (all below
    U+0020 but tab, line feed and carriage return). *)
Fixpoint xml_text (s : string) : bool :=
  match s with
  | EmptyString => true
  | String c s' =>
      let n := PyStr.code c in
      ((32 <=? n) || (n =? 9) || (n =? 10) || (n =? 13)) && xml_text s'
  end.

Definition sample_docx_text (text : string) : outcome unit :=
  if xml_text text then Returns tt
  else Raises (LibraryError "All strings must be XML compatible: Unicode or ASCII, no NULL bytes or control characters").

(** A stand-in for the saved file: one line for each block. *)
Definition sample_block_bytes (b : block) : bytes :=
  match b with
  | Heading text level =>
      String.list_byte_of_string ("H" +:+ PyStr.of_Z level +:+ " " +:+ text) ++ [Byte.x0a]
  | Paragraph text => String.list_byte_of_string ("P " +:+ text) ++ [Byte.x0a]
  | PageBreak => [Byte.x0c]
  end.

Definition sample_docx_save (doc : document) : bytes :=
  concat (sample_block_bytes <$> doc).

(** pdf2image on a file of [page_count] pages, each page an empty image:
    the range asked for is cut to the pages there are. *)
Definition sample_rasteriser (page_count first_page last_page : Z) : outcome (list image) :=
  Returns ((fun _ => []) <$>
           seqZ (Z.max 1 first_page)
                (Z.min page_count last_page - Z.max 1 first_page + 1)).

Definition sample_env : environment := {|
  max_str_digits := 4300;
  which := fun name => if String.eqb name "pdftoppm" then Some "/usr/bin/pdftoppm"%string
                       else None;
  pdf2docx := fun pdf _ => Returns pdf;
  convert_from_bytes := fun _ first_page last_page =>
    Returns ((fun _ => []) <$> seqZ first_page (last_page - first_page + 1));
  image_to_string := fun _ _ => Returns "texto"%string;
  docx_text := sample_docx_text;
  docx_save := sample_docx_save;
  splitext_root := fun name => name
|}.

(** The same with a file of two pages. *)
Definition two_page_env : environment := {|
  max_str_digits := 4300;
  which := fun name => Some ("/usr/bin/" +:+ name);
  pdf2docx := fun pdf _ => Returns pdf;
  convert_from_bytes := fun _ first_page last_page => sample_rasteriser 2 first_page last_page;
  image_to_string := fun _ _ => Returns "texto"%string;
  docx_text := sample_docx_text;
  docx_save := sample_docx_save;
  splitext_root := fun name => name
|}.

(** The same with an OCR engine that ends each page with a form feed, as
    Tesseract does. *)
Definition form_feed_env : environment := {|
  max_str_digits := 4300;
  which := fun name => Some ("/usr/bin/" +:+ name);
  pdf2docx := fun pdf _ => Returns pdf;
  convert_from_bytes := fun _ first_page last_page =>
    Returns ((fun _ => []) <$> seqZ first_page (last_page - first_page + 1));
  image_to_string := fun _ _ => Returns ("texto" +:+ String (ascii_of_nat 12) EmptyString);
  docx_text := sample_docx_text;
  docx_save := sample_docx_save;
  splitext_root := fun name => name
|}.

(** What a computation returned, if it did, and the events it produced. *)
Definition returned {A} (m : M A) : option A :=
  match m with
  | (_, Returns a) => Some a
  | (_, Raises _) => None
  end.

Definition trace {A} (m : M A) : list event := fst m.

(** What [convert_ocr] is expected to add to the document, and to do, for
    the page numbered [page_num]. *)
Definition ocr_page_blocks (page_num : Z) (text : string) : list block :=
  [Heading (page_heading page_num) 3; Paragraph text; PageBreak].

Definition ocr_page_events (lang_code : string) (page_num : Z) (img : image) : list event :=
  [Show Page Text (msg_processing page_num); CallTesseract img lang_code].

(** Processing the whole range, as the claim words it: every page from the
    least selected to the greatest selected is announced, as the loop does
    before it reads a page. *)
Definition processes_whole_range (E : environment) (pdf_bytes : bytes) (lang_code : string)
    (pages_to_convert : list Z) : Prop :=
  forall lo hi, minimum pages_to_convert = Some lo -> maximum pages_to_convert = Some hi ->
  forall page_num, lo + 1 <= page_num <= hi + 1 ->
    Show Page Text (msg_processing page_num) ∈
      trace (convert_ocr E pdf_bytes lang_code pages_to_convert).

(** Clamping, as the specification words it: the pages of the token with
    its endpoints brought into [[1, max_pages]] are in the result. *)
Definition result_has_clamped (E : environment) (max_pages : Z) (text : string) (tok : token)
  : Prop :=
  ∀ pages, returned (parse_page_range E text max_pages) = Some pages →
           ∀ x, x ∈ token_pages (clamp_token max_pages tok) → x ∈ pages.

(** ** More of the script: what it does with an exception *)

(** [s.lower()] on code points below 256: the ASCII capitals and the
    accented capitals (all of U+00C0 to U+00DE but the multiplication sign)
    move up by 32. *)
Definition lower_char (c : ascii) : ascii :=
  let n := PyStr.code c in
  if ((65 <=? n) && (n <=? 90)) || ((192 <=? n) && (n <=? 222) && negb (n =? 215))
  then ascii_of_nat (Z.to_nat (n + 32))
  else c.

Fixpoint str_lower (s : string) : string :=
  match s with
  | EmptyString => EmptyString
  | String c s' => String (lower_char c) (str_lower s')
  end.

(** [str(e)].  A library's exception is a [LibraryError] that carries its
    message.  The other two are the script's own: the [ValueError] that
    leaves [convert_ocr] is the one of [min] on an empty list (worded as
    CPython 3.11 does), the [NameError] is the one of [docx_bytes]. *)
Definition exn_str (e : exn) : string :=
  match e with
  | ValueError => "min() arg is an empty sequence"
  | NameError => "name 'docx_bytes' is not defined"
  | LibraryError detail => detail
  end.

(** [try: body / except Exception as e: handler(e)] *)
Definition try_except {A} (body : M A) (handler : exn -> M A) : M A :=
  match body with
  | (tr, Returns a) => (tr, Returns a)
  | (tr, Raises e) => let (tr', r) := handler e in (tr ++ tr', r)
  end.

Definition e_acute : string := String (ascii_of_nat 233) EmptyString.
Definition u_acute : string := String (ascii_of_nat 250) EmptyString.

Definition msg_critical : string :=
  "Ocurri" +:+ PyStr.o_acute +:+ " un error cr" +:+ PyStr.i_acute +:+
  "tico durante la conversi" +:+ PyStr.o_acute +:+ "n.".

Definition msg_detail (e : exn) : string := "Detalle: " +:+ exn_str e.

Definition msg_hint (what : string) : string :=
  "Error de " +:+ what +:+ ": Aseg" +:+ u_acute +:+ "rate de que est" +:+ e_acute +:+
  " instalado Y en el PATH del sistema.".

(** Lines 227 to 233: the [except] branch of the request. *)
Definition report_failure (e : exn) : M unit :=
  show Page Error msg_critical ;;;
  show Page Error (msg_detail e) ;;;
  (if PyStr.contains "tesseract" (str_lower (exn_str e))
   then show Page Error (msg_hint "Tesseract") else ret tt) ;;;
  (if PyStr.contains "poppler" (str_lower (exn_str e)) ||
      PyStr.contains "pdftoppm" (str_lower (exn_str e))
   then show Page Error (msg_hint "Poppler") else ret tt).

(** Lines 193 to 233: the whole [try] statement run when the button is
    pressed (the spinner around it leaves nothing on the page). *)
Definition handle_request (E : environment) (file_name : string) (pdf_bytes : bytes)
    (page_range_str modo_conversion lang : string) : M unit :=
  try_except
    (conversion_request E file_name pdf_bytes page_range_str modo_conversion lang)
    report_failure.

Definition msg_no_pages : string :=
  "Rango de p" +:+ PyStr.a_acute +:+ "ginas no v" +:+ PyStr.a_acute +:+
  "lido o vac" +:+ PyStr.i_acute +:+ "o.".

Definition msg_precheck : string :=
  "Pre-chequeo de PDF... (usando PyPDF2 para contar p" +:+ PyStr.a_acute +:+
  "ginas ser" +:+ PyStr.i_acute +:+ "a m" +:+ PyStr.a_acute +:+ "s robusto)".

Definition msg_no_count : string :=
  "Conteo de p" +:+ PyStr.a_acute +:+ "ginas no implementado. Introduce el rango manualmente.".

Definition msg_precheck_failed (e : exn) : string :=
  "No se pudo pre-procesar el PDF: " +:+ exn_str e.

(** Lines 170 to 183: the value of [max_pages] after the check of the
    uploaded file.  The rasteriser is asked for the first page only (with
    its default thread count). *)
Definition page_count_check (E : environment) (poppler_ok : bool) (pdf_bytes : bytes) : M Z :=
  if poppler_ok then
    try_except
      (let* images_info := call_pdf2image E pdf_bytes 1 1 in
       show Page Info msg_precheck ;;;
       show Page Warning msg_no_count ;;;
       ret 500)
      (fun e => show Page Error (msg_precheck_failed e) ;;; ret 0)
  else ret 0.

(** ** What a trace may hold *)

(** A call to one of the three conversion tools: pdf2docx, the rasteriser
    or the OCR engine. *)
Definition is_conversion_call (ev : event) : bool :=
  match ev with
  | CallPdf2Docx _ _ | CallPdf2Image _ _ _ | CallTesseract _ _ => true
  | _ => false
  end.

Definition is_download (ev : event) : bool :=
  match ev with
  | DownloadButton _ _ _ _ => true
  | _ => false
  end.

(** The events of a run of [convert_ocr] on a selection with least page
    [lo] and greatest page [hi]. *)
Definition ocr_event (pdf_bytes : bytes) (lang_code : string) (lo hi : Z) (ev : event) : Prop :=
  match ev with
  | Show Page Info text => text = msg_using_ocr lang_code
  | Show Page Warning text => text = msg_ocr_note
  | Show Page Text text => exists page_num, lo + 1 <= page_num /\ text = msg_processing page_num
  | CallPdf2Image pdf first_page last_page =>
      pdf = pdf_bytes /\ first_page = lo + 1 /\ last_page = hi + 1
  | CallTesseract _ lang => lang = lang_code
  | _ => False
  end.

(** What the libraries may be asked during a request for [pdf_bytes] in
    the language [lang]: pdf2docx for a non-empty strictly increasing list
    of pages of [0 .. 499], the rasteriser for a range within [1 .. 500],
    the OCR engine in that language. *)
Definition request_call_ok (pdf_bytes : bytes) (lang : string) (ev : event) : Prop :=
  match ev with
  | CallPdf2Docx pdf pages =>
      pdf = pdf_bytes /\ pages <> [] /\ StronglySorted Z.lt pages /\
      Forall (fun x => 0 <= x <= 499) pages
  | CallPdf2Image pdf first_page last_page =>
      pdf = pdf_bytes /\ 1 <= first_page /\ first_page <= last_page /\ last_page <= 500
  | CallTesseract _ lang_code => lang_code = lang
  | _ => True
  end.

(** The strategy and the announcement that go with an option of the
    radio. *)
Definition selected_strategy (E : environment) (modo_conversion : string)
    (pdf_bytes : bytes) (lang : string) (pages_list : list Z) : M bytes :=
  if bool_decide (modo_conversion = label_digital)
  then convert_digital E pdf_bytes pages_list
  else convert_ocr E pdf_bytes lang pages_list.

Definition msg_start (modo_conversion : string) : string :=
  if bool_decide (modo_conversion = label_digital) then msg_start_digital else msg_start_ocr.

(** Neither the success message nor the download button. *)
Definition no_success (ev : event) : Prop :=
  ev <> Show Page Success msg_success /\ is_download ev = false.

(** * Properties *)

Example int_plain : PyInt.int 4300 "12" = Some 12.
Proof. reflexivity. Qed.
Example int_spaces : PyInt.int 4300 " 3 " = Some 3.
Proof. reflexivity. Qed.
Example int_signs : PyInt.int 4300 "+5" = Some 5 /\ PyInt.int 4300 "-5" = Some (-5).
Proof. split; reflexivity. Qed.
Example int_underscore :
  PyInt.int 4300 "1_0" = Some 10 /\ PyInt.int 4300 "_1" = None /\
  PyInt.int 4300 "1_" = None /\ PyInt.int 4300 "1__0" = None.
Proof. repeat split; reflexivity. Qed.
Example int_rejects :
  PyInt.int 4300 "" = None /\ PyInt.int 4300 "abc" = None /\
  PyInt.int 4300 "1 2" = None /\ PyInt.int 4300 "+ 5" = None /\
  PyInt.int 4300 "1.0" = None.
Proof. repeat split; reflexivity. Qed.
Example split_pieces :
  PyStr.split "," "1, 3-5" = ["1"; " 3-5"]%string /\
  PyStr.split "-" "-5" = [""; "5"]%string /\
  PyStr.split "," "1,,2" = ["1"; ""; "2"]%string.
Proof. repeat split; reflexivity. Qed.
Example str_of_ints :
  PyStr.of_list [0; 2; 3] = "[0, 2, 3]"%string /\ PyStr.of_Z (-5) = "-5"%string /\
  PyStr.of_list [] = "[]"%string.
Proof. repeat split; reflexivity. Qed.

Example parse_docstring :
  parse_page_range sample_env "1, 3-5" 500 = ret [0; 2; 3; 4].
Proof. vm_compute. reflexivity. Qed.
Example parse_overlap :
  parse_page_range sample_env "1-3, 2" 500 = ret [0; 1; 2].
Proof. vm_compute. reflexivity. Qed.
Example parse_unordered :
  parse_page_range sample_env "9,2,4-5" 10 = ret [1; 3; 4; 8].
Proof. vm_compute. reflexivity. Qed.

(** ** [sorted], [range] and the set of pages *)

Section sorted_pages.
Implicit Types (l : list Z) (X : gset Z).

Lemma strictly_sorted_of_nodup l :
  StronglySorted Z.le l → NoDup l → StronglySorted Z.lt l.
Proof.
  induction 1 as [|x l Hs IH Hx]; intros Hnd; [constructor|].
  apply NoDup_cons in Hnd as [Hnotin Hnd].
  constructor; [by apply IH|].
  rewrite Forall_forall in Hx |- *. intros y Hy.
  specialize (Hx y Hy).
  assert (x ≠ y) by (intros ->; done). lia.
Qed.

Lemma py_sorted_elem_of X x : x ∈ py_sorted X ↔ x ∈ X.
Proof.
  unfold py_sorted. rewrite merge_sort_Permutation. apply elem_of_elements.
Qed.

Lemma py_sorted_strict X : StronglySorted Z.lt (py_sorted X).
Proof.
  apply strictly_sorted_of_nodup.
  - apply (StronglySorted_merge_sort Z.le).
  - unfold py_sorted. rewrite merge_sort_Permutation. apply NoDup_elements.
Qed.

Lemma py_range_elem_of a b x : x ∈ py_range a b ↔ a <= x < b.
Proof. unfold py_range. rewrite elem_of_seqZ. lia. Qed.

Lemma seqZ_strict m n : StronglySorted Z.lt (seqZ m n).
Proof.
  destruct (Z.le_gt_cases n 0) as [Hn|Hn]; [rewrite seqZ_nil by done; constructor|].
  rewrite <- (Z2Nat.id n) by lia.
  generalize (Z.to_nat n) as k. clear. intros k. revert m.
  induction k as [|k IH]; intros m; [rewrite seqZ_nil by done; constructor|].
  rewrite seqZ_cons by lia.
  replace (Z.pred (Z.of_nat (S k))) with (Z.of_nat k) by lia.
  constructor; [apply IH|].
  apply Forall_seqZ. lia.
Qed.

Lemma py_range_from_zero n : py_range 0 n = Z.of_nat <$> seq 0 (Z.to_nat n).
Proof.
  unfold py_range, seqZ. replace (n - 0) with n by lia.
  apply list_fmap_ext. intros _ i _. lia.
Qed.

Lemma py_range_strict a b : StronglySorted Z.lt (py_range a b).
Proof. apply seqZ_strict. Qed.

End sorted_pages.

(** ** The loop of [parse_page_range] *)

Section parse_loop.
Variable E : environment.
Variable max_pages : Z.
Implicit Types (pages : gset Z) (part : string) (tok : token).

Lemma parse_part_read pages part :
  parse_part E max_pages pages part =
  (λ tok, pages ∪ contribution max_pages tok) <$> read_token E part.
Proof.
  unfold parse_part, read_token, contribution.
  destruct (PyStr.contains_char "-" part).
  - destruct (unpack_two_ints E (PyStr.split "-" part)) as [[a b]|]; simpl; [|done].
    unfold py_range. replace (b - (a - 1)) with (b - a + 1) by lia.
    destruct (_ && _); f_equal. set_solver.
  - destruct (PyInt.int (max_str_digits E) part) as [k|]; simpl; [|done].
    destruct (_ && _); f_equal; set_solver.
Qed.

Lemma elem_of_contribution tok x :
  x ∈ contribution max_pages tok ↔ passes_guard max_pages tok = true ∧ x ∈ token_pages tok.
Proof.
  unfold contribution. destruct (passes_guard max_pages tok).
  - rewrite elem_of_list_to_set. naive_solver.
  - set_solver.
Qed.

Lemma passes_guard_valid tok :
  passes_guard max_pages tok = true ↔ valid_token max_pages tok.
Proof.
  destruct tok as [k|a b]; simpl;
    rewrite ?andb_true_iff, ?Z.ltb_lt, ?Z.leb_le; lia.
Qed.

Lemma token_pages_bounds tok x :
  valid_token max_pages tok → x ∈ token_pages tok → 0 <= x < max_pages.
Proof.
  destruct tok as [k|a b]; simpl.
  - intros ? ->%list_elem_of_singleton. lia.
  - intros ? ?%elem_of_seqZ. lia.
Qed.

(** When every part reads as a token the loop ends normally, with the
    pages it started from and those of the tokens that pass the guard. *)
Lemma parse_parts_tokens parts toks pages :
  Forall2 (λ part tok, read_token E part = Some tok) parts toks →
  ∃ pages', parse_parts E max_pages pages parts = Some pages' ∧
    ∀ x, x ∈ pages' ↔
         x ∈ pages ∨ ∃ tok, tok ∈ toks ∧ passes_guard max_pages tok = true ∧
                             x ∈ token_pages tok.
Proof.
  intros Hall. revert pages.
  induction Hall as [|part tok parts toks Hread _ IH]; intros pages; simpl.
  - exists pages. split; [done|]. intros x. split; [auto|].
    intros [?|(? & []%elem_of_nil & _)]; done.
  - rewrite parse_part_read, Hread. simpl.
    destruct (IH (pages ∪ contribution max_pages tok)) as (pages' & -> & Hpages').
    exists pages'. split; [done|]. intros x. rewrite Hpages'.
    rewrite elem_of_union, elem_of_contribution.
    setoid_rewrite elem_of_cons. naive_solver.
Qed.

(** A part that does not read as a token makes the loop raise, wherever
    it stands. *)
Lemma parse_parts_raises parts pages :
  (∃ part, part ∈ parts ∧ read_token E part = None) →
  parse_parts E max_pages pages parts = None.
Proof.
  intros (bad & Hin & Hbad). revert pages.
  induction parts as [|part parts IH]; intros pages; [by apply elem_of_nil in Hin|].
  simpl. rewrite parse_part_read.
  apply elem_of_cons in Hin as [<-|Hin].
  - by rewrite Hbad.
  - destruct (read_token E part); simpl; [by apply IH|done].
Qed.

Lemma parse_parts_returns parts pages :
  Forall (λ part, is_Some (read_token E part)) parts →
  is_Some (parse_parts E max_pages pages parts).
Proof.
  intros Hall. revert pages. induction Hall as [|part parts [tok Htok] _ IH]; intros pages.
  - by eexists.
  - simpl. rewrite parse_part_read, Htok. simpl. apply IH.
Qed.

(** The loop only ever adds pages of the document. *)
Lemma parse_parts_bounds parts pages pages' :
  parse_parts E max_pages pages parts = Some pages' →
  (∀ x, x ∈ pages → 0 <= x < max_pages) →
  ∀ x, x ∈ pages' → 0 <= x < max_pages.
Proof.
  revert pages. induction parts as [|part parts IH]; intros pages; simpl.
  - intros [= <-]. done.
  - rewrite parse_part_read. destruct (read_token E part) as [tok|]; simpl; [|done].
    intros Hrest Hpages. apply (IH _ Hrest).
    intros x [?|[Hg Hx]%elem_of_contribution]%elem_of_union; [by apply Hpages|].
    apply passes_guard_valid in Hg. eauto using token_pages_bounds.
Qed.

End parse_loop.

(** ** [split] and [join] *)

Section split_join.
Variable sep : ascii.
Implicit Types (s : string) (pieces : list string).

Lemma split_not_nil s : PyStr.split sep s ≠ [].
Proof.
  destruct s as [|c s]; simpl; [done|].
  destruct (Ascii.eqb c sep); [done|]. by destruct (PyStr.split sep s).
Qed.

Lemma split_without_sep s :
  PyStr.contains_char sep s = false → PyStr.split sep s = [s].
Proof.
  induction s as [|c s IH]; simpl; [done|].
  destruct (Ascii.eqb c sep); [done|]. intros Hs. by rewrite IH.
Qed.

Lemma split_app s1 s2 :
  PyStr.contains_char sep s1 = false →
  PyStr.split sep (s1 +:+ String sep s2) = s1 :: PyStr.split sep s2.
Proof.
  induction s1 as [|c s1 IH]; simpl.
  - intros _. by rewrite Ascii.eqb_refl.
  - destruct (Ascii.eqb c sep); [done|]. intros Hs1. by rewrite IH.
Qed.

Lemma split_join pieces :
  pieces ≠ [] →
  Forall (λ p, PyStr.contains_char sep p = false) pieces →
  PyStr.split sep (PyStr.join (String sep EmptyString) pieces) = pieces.
Proof.
  intros Hne Hall. induction Hall as [|p pieces Hp Hall IH]; [done|].
  destruct pieces as [|q pieces].
  - simpl. by apply split_without_sep.
  - change (PyStr.join (String sep EmptyString) (p :: q :: pieces))
      with (p +:+ String sep (PyStr.join (String sep EmptyString) (q :: pieces))).
    rewrite split_app by done. by rewrite IH.
Qed.

Lemma join_empty pieces :
  PyStr.join (String sep EmptyString) pieces = EmptyString →
  pieces = [] ∨ pieces = [EmptyString].
Proof.
  destruct pieces as [|p [|q pieces]]; [by left|simpl; intros ->; by right|].
  change (PyStr.join (String sep EmptyString) (p :: q :: pieces))
    with (p +:+ String sep (PyStr.join (String sep EmptyString) (q :: pieces))).
  destruct p; simpl; done.
Qed.

End split_join.

(** ** Written tokens are read back *)

Lemma writes_no_comma E tok text :
  writes E tok text = true → PyStr.contains_char "," text = false.
Proof. unfold writes. by intros [?%negb_true_iff _]%andb_true_iff. Qed.

Lemma writes_read E tok text :
  writes E tok text = true → read_token E text = Some tok.
Proof.
  unfold writes, read_token. intros [_ Htok]%andb_true_iff.
  destruct tok as [k|a b].
  - apply andb_true_iff in Htok as [->%negb_true_iff Hint%bool_decide_eq_true].
    by rewrite Hint.
  - destruct (PyStr.split "-" text) as [|sa [|sb [|? ?]]] eqn:Hsplit; try done.
    apply andb_true_iff in Htok as [Ha%bool_decide_eq_true Hb%bool_decide_eq_true].
    destruct (PyStr.contains_char "-" text) eqn:Hdash.
    + unfold unpack_two_ints. simpl. by rewrite Ha, Hb.
    + rewrite (split_without_sep _ _ Hdash) in Hsplit. done.
Qed.

Lemma writes_nonempty E tok : writes E tok EmptyString = false.
Proof. by destruct tok. Qed.

(** ** Decimal numerals are read back by [int] *)

Section numerals.
Implicit Types (d : Decimal.uint) (c : ascii).

Lemma scan_numeral d acc n :
  PyInt.scan_digits acc n false (NilEmpty.string_of_uint d) =
  Some (numeral_value acc d, (n + Decimal.nb_digits d)%nat, EmptyString).
Proof.
  revert acc n. induction d as [|d IH|d IH|d IH|d IH|d IH|d IH|d IH|d IH|d IH|d IH];
    intros acc n; cbn [NilEmpty.string_of_uint Decimal.nb_digits numeral_value];
    [simpl; by rewrite Nat.add_0_r|..];
    cbn [PyInt.scan_digits];
    lazymatch goal with
    | |- context [PyInt.digit_value ?c] =>
        let v := eval vm_compute in (PyInt.digit_value c) in
        change (PyInt.digit_value c) with v
    end;
    cbn iota; rewrite IH.
  all: by rewrite Nat.add_succ_r.
Qed.

Lemma numeral_value_pos d acc :
  numeral_value (Z.pos acc) d = Z.pos (Pos.of_uint_acc d acc).
Proof.
  revert acc. induction d as [|d IH|d IH|d IH|d IH|d IH|d IH|d IH|d IH|d IH|d IH];
    intros acc; simpl; [done|..]; rewrite <- IH; f_equal; lia.
Qed.

Lemma numeral_value_zero d : numeral_value 0 d = Z.of_N (Pos.of_uint d).
Proof.
  induction d as [|d IH|d IH|d IH|d IH|d IH|d IH|d IH|d IH|d IH|d IH];
    simpl; [done|done|..]; apply numeral_value_pos.
Qed.

Lemma numeral_length d :
  String.length (NilEmpty.string_of_uint d) = Decimal.nb_digits d.
Proof. induction d; simpl; by f_equal. Qed.

Lemma numeral_chars d c :
  PyInt.digit_value c = None → PyStr.contains_char c (NilEmpty.string_of_uint d) = false.
Proof.
  intros Hc. induction d; cbn [NilEmpty.string_of_uint PyStr.contains_char]; [done|..];
    lazymatch goal with
    | |- context [Ascii.eqb ?a c] =>
        destruct (Ascii.eqb a c) eqn:Heq; [|done];
        apply Ascii.eqb_eq in Heq; subst c; vm_compute in Hc; discriminate
    end.
Qed.

Lemma int_numeral cap d :
  d ≠ Decimal.Nil →
  (Decimal.nb_digits d <= 640)%nat →
  PyInt.int cap (NilEmpty.string_of_uint d) = Some (numeral_value 0 d).
Proof.
  intros Hd Hlen.
  assert (Hunsigned : PyInt.unsigned cap (NilEmpty.string_of_uint d) =
                      Some (numeral_value 0 d)).
  { unfold PyInt.unsigned. rewrite scan_numeral.
    assert (PyInt.starts_with_underscore (NilEmpty.string_of_uint d) = false) as ->
      by (by destruct d).
    assert ((0 + Decimal.nb_digits d =? 0)%nat = false) as ->
      by (by destruct d).
    assert (PyInt.too_many_digits cap (0 + Decimal.nb_digits d) = false) as ->; [|done].
    unfold PyInt.too_many_digits.
    assert ((640 <? 0 + Decimal.nb_digits d)%nat = false) as ->; [|done].
    apply Nat.ltb_ge. lia. }
  rewrite <- Hunsigned. by destruct d.
Qed.

(** [int(str(k)) == k] for a [k >= 0] of at most 640 digits, whatever the
    interpreter's limit on digits. *)
Lemma int_of_Z cap k :
  0 <= k →
  (String.length (PyStr.of_Z k) <= 640)%nat →
  PyInt.int cap (PyStr.of_Z k) = Some k.
Proof.
  intros Hk Hlen. destruct k as [|p|p]; [done| |lia].
  unfold PyStr.of_Z in *. simpl in *. unfold NilZero.string_of_uint in *.
  pose proof (DecimalPos.Unsigned.to_uint_nonnil p) as Hnil.
  pose proof (DecimalPos.Unsigned.of_to p) as Hback.
  destruct (Pos.to_uint p) as [|d|d|d|d|d|d|d|d|d|d] eqn:Hd; [done|..];
    (rewrite int_numeral; [|done|by rewrite <- numeral_length]);
    by rewrite numeral_value_zero, Hback.
Qed.

Lemma of_Z_chars k c :
  0 <= k → PyInt.digit_value c = None → PyStr.contains_char c (PyStr.of_Z k) = false.
Proof.
  intros Hk Hc. destruct k as [|p|p]; [|  |lia].
  - change (PyStr.of_Z 0) with "0"%string. cbn [PyStr.contains_char].
    destruct (Ascii.eqb "0" c) eqn:Heq; [|done].
    apply Ascii.eqb_eq in Heq. subst c. vm_compute in Hc. discriminate.
  - unfold PyStr.of_Z. simpl. unfold NilZero.string_of_uint.
    pose proof (numeral_chars (Pos.to_uint p) c Hc) as Hchars.
    pose proof (DecimalPos.Unsigned.to_uint_nonnil p) as Hnil.
    by destruct (Pos.to_uint p).
Qed.

Lemma numeral_value_lower d acc :
  0 <= acc → acc * 10 ^ Z.of_nat (Decimal.nb_digits d) <= numeral_value acc d.
Proof.
  revert acc. induction d as [|d IH|d IH|d IH|d IH|d IH|d IH|d IH|d IH|d IH|d IH];
    intros acc Hacc; cbn [numeral_value Decimal.nb_digits];
    [rewrite Z.pow_0_r; lia|..];
    rewrite Nat2Z.inj_succ, Z.pow_succ_r by lia;
    (etrans; [|apply IH; lia]);
    assert (0 <= 10 ^ Z.of_nat (Decimal.nb_digits d)) by (apply Z.pow_nonneg; lia);
    nia.
Qed.

(** The numeral of a positive number does not start with a zero. *)
Lemma to_uint_no_leading_zero p d : Pos.to_uint p ≠ Decimal.D0 d.
Proof.
  intros Hd.
  pose proof (DecimalPos.Unsigned.to_of (Pos.to_uint p)) as Hnorm.
  rewrite DecimalPos.Unsigned.of_to in Hnorm. simpl in Hnorm.
  assert (Hhead : Decimal.nzhead (Pos.to_uint p) ≠ Decimal.Nil).
  { intros Hnil%DecimalFacts.unorm_0. rewrite Hnil in Hnorm.
    by apply (DecimalPos.Unsigned.to_uint_nonzero p). }
  rewrite (DecimalFacts.unorm_nzhead _ Hhead) in Hnorm.
  apply (DecimalFacts.nzhead_nonzero (Pos.to_uint p) d). by rewrite <- Hnorm.
Qed.

(** A number below [10 ^ n] has at most [n] digits. *)
Lemma of_Z_length k n :
  (0 < n)%nat → 0 <= k < 10 ^ Z.of_nat n → (String.length (PyStr.of_Z k) <= n)%nat.
Proof.
  intros Hn [Hk Hbound]. destruct k as [|p|p]; [simpl; lia| |lia].
  unfold PyStr.of_Z. simpl. unfold NilZero.string_of_uint.
  pose proof (DecimalPos.Unsigned.to_uint_nonnil p) as Hnil.
  pose proof (to_uint_no_leading_zero p) as Hlead.
  pose proof (DecimalPos.Unsigned.of_to p) as Hback.
  pose proof (numeral_value_zero (Pos.to_uint p)) as Hvalue.
  rewrite Hback in Hvalue. simpl in Hvalue.
  destruct (Pos.to_uint p) as [|d|d|d|d|d|d|d|d|d|d] eqn:Hd;
    [done|by destruct (Hlead d)|..];
    rewrite numeral_length; cbn [Decimal.nb_digits];
    cbn [numeral_value] in Hvalue;
    (destruct (decide (Decimal.nb_digits d < n)%nat) as [|Hlong]; [lia|]);
    exfalso;
    assert (10 ^ Z.of_nat n <= 10 ^ Z.of_nat (Decimal.nb_digits d))
      by (apply Z.pow_le_mono_r; lia);
    match type of Hvalue with
    | numeral_value ?j d = _ => pose proof (numeral_value_lower d j ltac:(lia))
    end;
    nia.
Qed.

End numerals.

Lemma contains_char_app c s1 s2 :
  PyStr.contains_char c (s1 +:+ s2) =
  PyStr.contains_char c s1 || PyStr.contains_char c s2.
Proof. induction s1 as [|a s1 IH]; simpl; [done|]. by destruct (Ascii.eqb a c). Qed.

(** A token of non-negative numbers of at most 640 digits each, written
    plainly, is a written token. *)
Lemma writes_token_text E tok :
  match tok with
  | Single k => 0 <= k ∧ (String.length (PyStr.of_Z k) <= 640)%nat
  | Span a b => (0 <= a ∧ (String.length (PyStr.of_Z a) <= 640)%nat) ∧
                (0 <= b ∧ (String.length (PyStr.of_Z b) <= 640)%nat)
  end →
  writes E tok (token_text tok) = true.
Proof.
  unfold writes. destruct tok as [k|a b]; simpl.
  - intros [Hk Hlen]. rewrite !of_Z_chars by done. simpl.
    by rewrite bool_decide_eq_true_2 by by apply int_of_Z.
  - intros [[Ha Hla] [Hb Hlb]].
    change ("-" +:+ PyStr.of_Z b)%string with (String "-" (PyStr.of_Z b)).
    rewrite contains_char_app. cbn [PyStr.contains_char].
    change (Ascii.eqb "-" ",") with false. cbn iota.
    rewrite !of_Z_chars by done. cbn [orb negb andb].
    rewrite split_app by by apply of_Z_chars.
    rewrite split_without_sep by by apply of_Z_chars.
    by rewrite !bool_decide_eq_true_2 by by apply int_of_Z.
Qed.

(** ** [parse_page_range] *)

Lemma parse_page_range_nonempty E s max_pages :
  s ≠ EmptyString →
  parse_page_range E s max_pages =
  match parse_parts E max_pages ∅ (PyStr.split "," s) with
  | Some pages => ret (py_sorted pages)
  | None => show Page Error msg_invalid_range ;;; ret (py_range 0 max_pages)
  end.
Proof. by destruct s. Qed.

(** An input whose parts all read as tokens: no message, and the sorted
    pages of the tokens that lie within the document. *)
Lemma parse_page_range_tokens E s max_pages toks :
  s ≠ EmptyString →
  Forall2 (λ part tok, read_token E part = Some tok) (PyStr.split "," s) toks →
  ∃ pages, parse_page_range E s max_pages = ret pages ∧
    StronglySorted Z.lt pages ∧
    ∀ x, x ∈ pages ↔
         ∃ tok, tok ∈ toks ∧ valid_token max_pages tok ∧ x ∈ token_pages tok.
Proof.
  intros Hs Hread. rewrite parse_page_range_nonempty by done.
  destruct (parse_parts_tokens E max_pages _ _ ∅ Hread) as (pages & -> & Hpages).
  exists (py_sorted pages). split; [done|]. split; [apply py_sorted_strict|].
  intros x. rewrite py_sorted_elem_of, Hpages.
  setoid_rewrite passes_guard_valid. set_solver.
Qed.

(** Written tokens joined by commas: the input is not empty and its parts
    are read back as the tokens, in order. *)
Lemma written_tokens_parts E toks texts :
  toks ≠ [] →
  Forall2 (λ tok text, writes E tok text = true) toks texts →
  PyStr.join "," texts ≠ EmptyString ∧
  Forall2 (λ part tok, read_token E part = Some tok)
    (PyStr.split "," (PyStr.join "," texts)) toks.
Proof.
  intros Hne Hwrites.
  assert (Hcommas : Forall (λ p, PyStr.contains_char "," p = false) texts).
  { clear -Hwrites. induction Hwrites; constructor; eauto using writes_no_comma. }
  assert (Htexts : texts ≠ []).
  { intros ->. by apply Forall2_nil_inv_r in Hwrites. }
  split.
  - intros [->| ->]%join_empty; [done|].
    apply Forall2_cons_inv_r in Hwrites as (tok & ? & Hw & _ & _).
    by rewrite writes_nonempty in Hw.
  - rewrite split_join by done. apply Forall2_flip.
    eapply Forall2_impl; [exact Hwrites|]. eauto using writes_read.
Qed.

(** Plain numerals below [10 ^ 640] write their tokens. *)
Lemma plain_tokens_written E max_pages toks :
  Forall (valid_token max_pages) toks →
  max_pages < 10 ^ 640 →
  Forall2 (λ tok text, writes E tok text = true) toks (token_text <$> toks).
Proof.
  intros Hvalid Hmax.
  apply Forall2_fmap_r, Forall_Forall2_diag.
  eapply Forall_impl; [exact Hvalid|]. intros tok Htok.
  apply writes_token_text.
  assert (Hshort : ∀ k, 0 <= k <= max_pages → 0 <= k ∧
                        (String.length (PyStr.of_Z k) <= 640)%nat).
  { intros k Hk. split; [lia|]. apply of_Z_length; [lia|].
    change (Z.of_nat 640) with 640. lia. }
  destruct tok as [k|a b]; simpl in Htok; [|split]; apply Hshort; lia.
Qed.

(** C1.  An input made only of valid tokens separated by commas, each a page
    number [k] with [1 <= k <= max_pages] or a range [a-b] with
    [1 <= a <= b <= max_pages], gives exactly the 0-indexed union of the
    tokens, [{k-1}] and [{a-1, ..., b-1}], as a strictly increasing list
    (and shows no message). *)
Theorem parse_page_range_valid_tokens E max_pages toks texts :
  toks ≠ [] →
  Forall2 (λ tok text, writes E tok text = true) toks texts →
  Forall (valid_token max_pages) toks →
  ∃ pages, parse_page_range E (PyStr.join "," texts) max_pages = ret pages ∧
    StronglySorted Z.lt pages ∧
    ∀ x, x ∈ pages ↔ ∃ tok, tok ∈ toks ∧ x ∈ token_pages tok.
Proof.
  intros Hne Hwrites Hvalid.
  destruct (written_tokens_parts E toks texts Hne Hwrites) as [Hs Hparts].
  destruct (parse_page_range_tokens E (PyStr.join "," texts) max_pages toks Hs Hparts)
    as (pages & Hrun & Hsorted & Hpages).
  exists pages. split; [done|]. split; [done|].
  intros x. rewrite Hpages. rewrite Forall_forall in Hvalid. naive_solver.
Qed.

Lemma parse_page_range_valid_tokens_witness :
  ∃ pages, parse_page_range sample_env "1, 3-5,4" 500 = ret pages ∧
    StronglySorted Z.lt pages ∧
    ∀ x, x ∈ pages ↔ ∃ tok, tok ∈ [Single 1; Span 3 5; Single 4] ∧ x ∈ token_pages tok.
Proof.
  apply (parse_page_range_valid_tokens sample_env 500 [Single 1; Span 3 5; Single 4]
           ["1"; " 3-5"; "4"]%string).
  - discriminate.
  - repeat constructor.
  - repeat constructor; simpl; lia.
Defined.

(** C2.  The empty input gives all pages, [0, 1, ..., max_pages - 1], for
    every [max_pages] (none when [max_pages] is not positive), and shows no
    message. *)
Theorem parse_page_range_empty E max_pages :
  parse_page_range E EmptyString max_pages =
  ret (Z.of_nat <$> seq 0 (Z.to_nat max_pages)).
Proof.
  simpl. by rewrite py_range_from_zero.
Qed.

(** C3, as stated, fails: a token with an endpoint beyond [max_pages] is not
    clamped.  With 500 pages, [3-600] would clamp to [3-500] and [600] to
    [500]; the result has none of their pages. *)
Lemma parse_page_range_no_clamping :
  read_token sample_env "3-600" = Some (Span 3 600) ∧
  clamp_token 500 (Span 3 600) = Span 3 500 ∧
  parse_page_range sample_env "3-600" 500 = ret [] ∧
  ¬ result_has_clamped sample_env 500 "3-600" (Span 3 600) ∧
  parse_page_range sample_env "600" 500 = ret [] ∧
  ¬ result_has_clamped sample_env 500 "600" (Single 600).
Proof.
  assert (H1 : parse_page_range sample_env "3-600" 500 = ret []) by (vm_compute; done).
  assert (H2 : parse_page_range sample_env "600" 500 = ret []) by (vm_compute; done).
  repeat split; try done.
  - intros Hclamp. specialize (Hclamp [] (f_equal returned H1) 2).
    apply (not_elem_of_nil 2), Hclamp. simpl. apply elem_of_seqZ. vm_compute. by split.
  - intros Hclamp. specialize (Hclamp [] (f_equal returned H2) 499).
    apply (not_elem_of_nil 499), Hclamp. simpl. apply list_elem_of_singleton. by vm_compute.
Qed.

(** C3, amended.  In a non-empty input whose parts are all numeric tokens, a
    token with an endpoint outside [[1, max_pages]] (or a range that ends
    before it starts) is discarded, not clamped: every page of the result
    comes from a token that lies within [[1, max_pages]] as written, and
    when no token does the result is empty.  (The empty input and an input
    with a part that is not numeric give all pages instead.) *)
Theorem parse_page_range_discards_out_of_range E s max_pages toks :
  s ≠ EmptyString →
  Forall2 (λ part tok, read_token E part = Some tok) (PyStr.split "," s) toks →
  ∃ pages, parse_page_range E s max_pages = ret pages ∧
    (∀ x, x ∈ pages →
          ∃ tok, tok ∈ toks ∧ valid_token max_pages tok ∧ x ∈ token_pages tok) ∧
    (Forall (λ tok, ¬ valid_token max_pages tok) toks → pages = []).
Proof.
  intros Hs Hread.
  destruct (parse_page_range_tokens E s max_pages toks Hs Hread)
    as (pages & Hrun & _ & Hpages).
  exists pages. split; [done|]. split; [intros x; by rewrite Hpages|].
  intros Hnone. destruct pages as [|x pages]; [done|].
  destruct (proj1 (Hpages x)) as (tok & Hin & Hvalid & _); [left|].
  rewrite Forall_forall in Hnone. by destruct (Hnone tok Hin).
Qed.

Lemma parse_page_range_discards_out_of_range_witness :
  ∃ pages, parse_page_range sample_env "2,3-600,0,7-6" 500 = ret pages ∧
    (∀ x, x ∈ pages →
          ∃ tok, tok ∈ [Single 2; Span 3 600; Single 0; Span 7 6] ∧
                 valid_token 500 tok ∧ x ∈ token_pages tok) ∧
    (Forall (λ tok, ¬ valid_token 500 tok) [Single 2; Span 3 600; Single 0; Span 7 6] →
     pages = []).
Proof.
  apply (parse_page_range_discards_out_of_range sample_env "2,3-600,0,7-6" 500).
  - discriminate.
  - repeat constructor.
Defined.

(** C4, as stated, fails: a token that is not a number is not dropped on
    its own.  ["1,abc"] does not give page 0 alone; the message is shown and
    all 500 pages are returned. *)
Lemma parse_page_range_non_numeric_not_dropped :
  read_token sample_env "1" = Some (Single 1) ∧
  read_token sample_env "abc" = None ∧
  parse_page_range sample_env "1,abc" 500 =
    (show Page Error msg_invalid_range ;;; ret (py_range 0 500)) ∧
  returned (parse_page_range sample_env "1,abc" 500) ≠ Some [0].
Proof.
  assert (H : parse_page_range sample_env "1,abc" 500 =
              (show Page Error msg_invalid_range ;;; ret (py_range 0 500)))
    by (vm_compute; done).
  split; [done|]. split; [done|]. split; [done|]. rewrite H. by vm_compute.
Qed.

(** C4, amended.  When every token of the input is numeric, the tokens that
    do not lie within [[1, max_pages]] are dropped without a message, and
    the result is the pages of the remaining, valid, tokens. *)
Theorem parse_page_range_drops_invalid_numeric E s max_pages toks :
  s ≠ EmptyString →
  Forall2 (λ part tok, read_token E part = Some tok) (PyStr.split "," s) toks →
  ∃ pages, parse_page_range E s max_pages = ([], Returns pages) ∧
    StronglySorted Z.lt pages ∧
    ∀ x, x ∈ pages ↔
         ∃ tok, tok ∈ filter (λ tok, passes_guard max_pages tok = true) toks ∧
                x ∈ token_pages tok.
Proof.
  intros Hs Hread.
  destruct (parse_page_range_tokens E s max_pages toks Hs Hread)
    as (pages & Hrun & Hsorted & Hpages).
  exists pages. split; [done|]. split; [done|].
  intros x. rewrite Hpages. setoid_rewrite list_elem_of_filter.
  setoid_rewrite passes_guard_valid. naive_solver.
Qed.

Lemma parse_page_range_drops_invalid_numeric_witness :
  ∃ pages, parse_page_range sample_env "2,900,4-5" 500 = ([], Returns pages) ∧
    StronglySorted Z.lt pages ∧
    ∀ x, x ∈ pages ↔
         ∃ tok, tok ∈ filter (λ tok, passes_guard 500 tok = true)
                            [Single 2; Single 900; Span 4 5] ∧
                x ∈ token_pages tok.
Proof.
  apply (parse_page_range_drops_invalid_numeric sample_env "2,900,4-5" 500).
  - discriminate.
  - repeat constructor.
Defined.

(** C5.  When the parsing raises, which it does as soon as one part of the
    input is not numeric (and so when every part is not), the exception does
    not leave [parse_page_range]: the message is shown and all pages,
    [0, 1, ..., max_pages - 1], are returned. *)
Theorem parse_page_range_failure_all_pages E s max_pages :
  s ≠ EmptyString →
  (∃ part, part ∈ PyStr.split "," s ∧ read_token E part = None) →
  parse_page_range E s max_pages =
    ([Show Page Error msg_invalid_range],
     Returns (Z.of_nat <$> seq 0 (Z.to_nat max_pages))).
Proof.
  intros Hs Hbad. rewrite parse_page_range_nonempty by done.
  rewrite parse_parts_raises by done.
  by rewrite py_range_from_zero.
Qed.

Lemma parse_page_range_failure_all_pages_witness :
  parse_page_range sample_env "abc, x-y" 3 =
    ([Show Page Error msg_invalid_range], Returns [0; 1; 2]).
Proof.
  apply (parse_page_range_failure_all_pages sample_env "abc, x-y" 3).
  - discriminate.
  - exists "abc"%string. split; [|reflexivity].
    change (PyStr.split "," "abc, x-y") with ["abc"; " x-y"]%string. left.
Defined.

(** C6.  For every input and every [max_pages] (so for every
    [max_pages >= 0]), [parse_page_range] returns, and the list it returns
    is strictly increasing, hence without duplicates, with every element in
    [[0, max_pages - 1]]. *)
Theorem parse_page_range_strictly_increasing_in_bounds E s max_pages :
  ∃ tr pages, parse_page_range E s max_pages = (tr, Returns pages) ∧
    StronglySorted Z.lt pages ∧
    Forall (λ x, 0 <= x <= max_pages - 1) pages.
Proof.
  assert (Hall : StronglySorted Z.lt (py_range 0 max_pages) ∧
                 Forall (λ x, 0 <= x <= max_pages - 1) (py_range 0 max_pages)).
  { split; [apply py_range_strict|].
    apply Forall_forall. intros x ?%py_range_elem_of. lia. }
  destruct s as [|c s]; [by exists [], (py_range 0 max_pages)|].
  rewrite parse_page_range_nonempty by done.
  destruct (parse_parts E max_pages ∅ _) as [pages|] eqn:Hloop.
  - exists [], (py_sorted pages). split; [done|]. split; [apply py_sorted_strict|].
    apply Forall_forall. intros x ?%py_sorted_elem_of.
    assert (0 <= x < max_pages); [|lia].
    eapply parse_parts_bounds; [exact Hloop| |done]. set_solver.
  - by exists [Show Page Error msg_invalid_range], (py_range 0 max_pages).
Qed.

(** ** The monad *)

Section monad_laws.
Context {A B C : Type}.

Lemma bind_ret_l (a : A) (k : A → M B) : bind (ret a) k = k a.
Proof. unfold bind, ret. by destruct (k a). Qed.

Lemma bind_returns tr (a : A) (k : A → M B) :
  bind (tr, Returns a) k = (tr ++ (k a).1, (k a).2).
Proof. unfold bind. by destruct (k a). Qed.

Lemma bind_raises tr e (k : A → M B) : bind (tr, Raises e) k = (tr, Raises e).
Proof. done. Qed.

Lemma bind_assoc (m : M A) (k : A → M B) (h : B → M C) :
  bind (bind m k) h = bind m (λ a, bind (k a) h).
Proof.
  destruct m as [tr [a|e]]; [|done]. unfold bind.
  destruct (k a) as [tr' [b|e]]; [|done].
  destruct (h b) as [tr'' r]. by rewrite (assoc_L (++)).
Qed.

Lemma bind_ext (m : M A) (k k' : A → M B) :
  (∀ a, k a = k' a) → bind m k = bind m k'.
Proof. intros Hk. destruct m as [tr [a|e]]; [|done]. unfold bind. by rewrite Hk. Qed.

End monad_laws.

Lemma bind_ret_Some {A B} (m : M A) (k : option A → M B) :
  bind (let* a := m in ret (Some a)) k = let* a := m in k (Some a).
Proof. rewrite bind_assoc. apply bind_ext. intros a. apply bind_ret_l. Qed.

(** ** [min] and [max] *)

Section extrema.
Implicit Types (l : list Z) (x : Z).

Lemma foldl_min_spec l x :
  (foldl Z.min x l = x ∨ foldl Z.min x l ∈ l) ∧
  foldl Z.min x l <= x ∧ ∀ y, y ∈ l → foldl Z.min x l <= y.
Proof.
  revert x. induction l as [|z l IH]; intros x; simpl.
  - split; [by left|]. split; [lia|]. by intros y ?%elem_of_nil.
  - destruct (IH (Z.min x z)) as ([Heq|Hin] & Hle & Hall); (split; [|split]).
    + rewrite Heq. destruct (Z.min_spec x z) as [[_ ->]|[_ ->]]; [by left|].
      right. left.
    + lia.
    + intros y [->|Hy]%elem_of_cons; [lia|by apply Hall].
    + right. by right.
    + lia.
    + intros y [->|Hy]%elem_of_cons; [lia|by apply Hall].
Qed.

Lemma foldl_max_spec l x :
  (foldl Z.max x l = x ∨ foldl Z.max x l ∈ l) ∧
  x <= foldl Z.max x l ∧ ∀ y, y ∈ l → y <= foldl Z.max x l.
Proof.
  revert x. induction l as [|z l IH]; intros x; simpl.
  - split; [by left|]. split; [lia|]. by intros y ?%elem_of_nil.
  - destruct (IH (Z.max x z)) as ([Heq|Hin] & Hle & Hall); (split; [|split]).
    + rewrite Heq. destruct (Z.max_spec x z) as [[_ ->]|[_ ->]]; [|by left].
      right. left.
    + lia.
    + intros y [->|Hy]%elem_of_cons; [lia|by apply Hall].
    + right. by right.
    + lia.
    + intros y [->|Hy]%elem_of_cons; [lia|by apply Hall].
Qed.

(** [minimum] is the least element, [maximum] the greatest. *)
Lemma minimum_spec l lo :
  minimum l = Some lo ↔ lo ∈ l ∧ ∀ y, y ∈ l → lo <= y.
Proof.
  destruct l as [|x l]; simpl.
  - split; [done|]. by intros [?%elem_of_nil _].
  - destruct (foldl_min_spec l x) as (Hin & Hle & Hall). split.
    + intros [= <-]. split.
      * destruct Hin as [->|?]; [left|by right].
      * intros y [->|?]%elem_of_cons; auto.
    + intros [Hlo Hleast]. f_equal. apply Z.le_antisymm.
      * apply elem_of_cons in Hlo as [->|?]; auto.
      * apply Hleast. destruct Hin as [->|?]; [left|by right].
Qed.

Lemma maximum_spec l hi :
  maximum l = Some hi ↔ hi ∈ l ∧ ∀ y, y ∈ l → y <= hi.
Proof.
  destruct l as [|x l]; simpl.
  - split; [done|]. by intros [?%elem_of_nil _].
  - destruct (foldl_max_spec l x) as (Hin & Hle & Hall). split.
    + intros [= <-]. split.
      * destruct Hin as [->|?]; [left|by right].
      * intros y [->|?]%elem_of_cons; auto.
    + intros [Hhi Hgreatest]. f_equal. apply Z.le_antisymm.
      * apply Hgreatest. destruct Hin as [->|?]; [left|by right].
      * apply elem_of_cons in Hhi as [->|?]; auto.
Qed.

Lemma minimum_shift l lo :
  minimum l = Some lo → minimum ((λ p, p + 1) <$> l) = Some (lo + 1).
Proof.
  rewrite !minimum_spec. intros [Hin Hleast]. split.
  - apply list_elem_of_fmap. eauto.
  - intros y (p & -> & Hp)%list_elem_of_fmap. specialize (Hleast p Hp). lia.
Qed.

Lemma maximum_shift l hi :
  maximum l = Some hi → maximum ((λ p, p + 1) <$> l) = Some (hi + 1).
Proof.
  rewrite !maximum_spec. intros [Hin Hgreatest]. split.
  - apply list_elem_of_fmap. eauto.
  - intros y (p & -> & Hp)%list_elem_of_fmap. specialize (Hgreatest p Hp). lia.
Qed.

Lemma minimum_is_Some l : l ≠ [] → is_Some (minimum l).
Proof. destruct l; [done|]. by eexists. Qed.

Lemma maximum_is_Some l : l ≠ [] → is_Some (maximum l).
Proof. destruct l; [done|]. by eexists. Qed.

End extrema.

(** ** [convert_ocr] *)

Lemma bind_returns_inv {A B} (m : M A) (k : A → M B) tr b :
  bind m k = (tr, Returns b) →
  ∃ tr1 a tr2, m = (tr1, Returns a) ∧ k a = (tr2, Returns b) ∧ tr = tr1 ++ tr2.
Proof.
  destruct m as [tr1 [a|e]]; [|done]. unfold bind.
  destruct (k a) as [tr2 r] eqn:Hk. intros [= <- ->]. by exists tr1, a, tr2.
Qed.

Section ocr.
Variable E : environment.
Variable lang_code : string.

Lemma add_heading_accepted doc text level :
  docx_text E text = Returns tt →
  add_heading E doc text level = ret (doc ++ [Heading text level]).
Proof. unfold add_heading. by intros ->. Qed.

Lemma add_paragraph_accepted doc text :
  docx_text E text = Returns tt →
  add_paragraph E doc text = ret (doc ++ [Paragraph text]).
Proof. unfold add_paragraph. by intros ->. Qed.

Lemma add_heading_returns doc text level tr doc' :
  add_heading E doc text level = (tr, Returns doc') →
  docx_text E text = Returns tt ∧ tr = [] ∧ doc' = doc ++ [Heading text level].
Proof.
  unfold add_heading. destruct (docx_text E text) as [[]|e]; [|done].
  by intros [= <- <-].
Qed.

Lemma add_paragraph_returns doc text tr doc' :
  add_paragraph E doc text = (tr, Returns doc') →
  docx_text E text = Returns tt ∧ tr = [] ∧ doc' = doc ++ [Paragraph text].
Proof.
  unfold add_paragraph. destruct (docx_text E text) as [[]|e]; [|done].
  by intros [= <- <-].
Qed.

(** The loop: when the OCR of every image returns and python-docx takes
    every heading and text, each image is processed in turn under
    consecutive page numbers. *)
Lemma ocr_loop_run pages_1_indexed first images texts :
  minimum pages_1_indexed = Some first →
  Forall2 (λ img text, image_to_string E img lang_code = Returns text) images texts →
  ∀ i doc,
    Forall2 (page_accepted E) (seqZ (i + first) (Z.of_nat (length texts))) texts →
    ocr_loop E lang_code pages_1_indexed i images doc =
    (concat (zip_with (ocr_page_events lang_code)
               (seqZ (i + first) (Z.of_nat (length images))) images),
     Returns (doc ++ concat (zip_with ocr_page_blocks
                               (seqZ (i + first) (Z.of_nat (length texts))) texts))).
Proof.
  intros Hmin Hocr. induction Hocr as [|img text images texts Htext _ IH]; intros i doc.
  - intros _. simpl. by rewrite (right_id_L [] (++)).
  - cbn [length]. rewrite !(seqZ_cons _ (Z.of_nat (S _))) by lia.
    replace (Z.pred (Z.of_nat (S (length images)))) with (Z.of_nat (length images)) by lia.
    replace (Z.pred (Z.of_nat (S (length texts)))) with (Z.of_nat (length texts)) by lia.
    replace (Z.succ (i + first)) with (i + 1 + first) by lia.
    intros [[Hhead Hpar] Hrest]%Forall2_cons.
    cbn [ocr_loop]. unfold py_min. rewrite Hmin, bind_ret_l.
    unfold show, emit, call_tesseract. rewrite Htext.
    rewrite !bind_returns. cbn [fst snd].
    rewrite (add_heading_accepted _ _ _ Hhead), bind_ret_l.
    rewrite (add_paragraph_accepted _ _ Hpar), bind_ret_l.
    rewrite (IH _ _ Hrest). cbn [fst snd].
    cbn [zip_with concat ocr_page_events ocr_page_blocks app]. unfold add_page_break.
    by rewrite <- !(assoc_L (++)).
Qed.

(** Conversely, when the loop returns it has gone through every image. *)
Lemma ocr_loop_returns pages_1_indexed first images :
  minimum pages_1_indexed = Some first →
  ∀ i doc tr doc',
    ocr_loop E lang_code pages_1_indexed i images doc = (tr, Returns doc') →
    ∃ texts,
      Forall2 (λ img text, image_to_string E img lang_code = Returns text) images texts ∧
      Forall2 (page_accepted E) (seqZ (i + first) (Z.of_nat (length texts))) texts.
Proof.
  intros Hmin. induction images as [|img images IH]; intros i doc tr doc'.
  - intros _. exists []. split; constructor.
  - cbn [ocr_loop]. unfold py_min. rewrite Hmin, bind_ret_l.
    intros (? & [] & tr1 & _ & Hrun & _)%bind_returns_inv.
    apply bind_returns_inv in Hrun as (? & text & tr2 & Hcall & Hrun & _).
    apply bind_returns_inv in Hrun as (? & doc1 & tr3 & Hhead & Hrun & _).
    apply bind_returns_inv in Hrun as (? & doc2 & tr4 & Hpar & Hrun & _).
    apply add_heading_returns in Hhead as (Hhead & _ & _).
    apply add_paragraph_returns in Hpar as (Hpar & _ & _).
    destruct (IH _ _ _ _ Hrun) as (texts & Hocr & Haccepted).
    exists (text :: texts). split.
    + constructor; [|done]. unfold call_tesseract in Hcall. by injection Hcall.
    + cbn [length]. rewrite (seqZ_cons _ (Z.of_nat (S _))) by lia.
      replace (Z.pred (Z.of_nat (S (length texts)))) with (Z.of_nat (length texts)) by lia.
      replace (Z.succ (i + first)) with (i + 1 + first) by lia.
      by constructor.
Qed.

(** A whole run of [convert_ocr] in which the libraries return and
    python-docx takes every text. *)
Lemma convert_ocr_run pdf_bytes pages_to_convert lo hi images texts :
  minimum pages_to_convert = Some lo →
  maximum pages_to_convert = Some hi →
  convert_from_bytes E pdf_bytes (lo + 1) (hi + 1) = Returns images →
  Forall2 (λ img text, image_to_string E img lang_code = Returns text) images texts →
  docx_text E (ocr_title lang_code) = Returns tt →
  Forall2 (page_accepted E) (seqZ (lo + 1) (Z.of_nat (length texts))) texts →
  convert_ocr E pdf_bytes lang_code pages_to_convert =
  ([Show Page Info (msg_using_ocr lang_code);
    CallPdf2Image pdf_bytes (lo + 1) (hi + 1);
    Show Page Warning msg_ocr_note] ++
   concat (zip_with (ocr_page_events lang_code)
             (seqZ (lo + 1) (Z.of_nat (length images))) images),
   Returns (docx_save E
              (Heading (ocr_title lang_code) 0 ::
               concat (zip_with ocr_page_blocks
                         (seqZ (lo + 1) (Z.of_nat (length texts))) texts)))).
Proof.
  intros Hmin Hmax Himages Hocr Htitle Haccepted. unfold convert_ocr, show, emit.
  rewrite bind_returns. cbn beta zeta.
  unfold py_min, py_max. rewrite (minimum_shift _ _ Hmin), bind_ret_l.
  rewrite (maximum_shift _ _ Hmax), bind_ret_l.
  unfold call_pdf2image. rewrite Himages, bind_returns. cbn beta.
  rewrite bind_returns. cbn beta.
  rewrite (add_heading_accepted _ _ _ Htitle), bind_ret_l.
  rewrite (ocr_loop_run _ (lo + 1) images texts)
    by (eauto using minimum_shift || by rewrite Z.add_0_l).
  rewrite bind_returns. cbn [fst snd ret app]. rewrite Z.add_0_l.
  by rewrite (right_id_L [] (++)).
Qed.

(** Conversely, a run of [convert_ocr] that returns is such a run. *)
Lemma convert_ocr_returns pdf_bytes pages_to_convert lo hi tr docx_bytes :
  minimum pages_to_convert = Some lo →
  maximum pages_to_convert = Some hi →
  convert_ocr E pdf_bytes lang_code pages_to_convert = (tr, Returns docx_bytes) →
  ∃ images texts,
    convert_from_bytes E pdf_bytes (lo + 1) (hi + 1) = Returns images ∧
    Forall2 (λ img text, image_to_string E img lang_code = Returns text) images texts ∧
    docx_text E (ocr_title lang_code) = Returns tt ∧
    Forall2 (page_accepted E) (seqZ (lo + 1) (Z.of_nat (length texts))) texts.
Proof.
  intros Hmin Hmax Hrun. unfold convert_ocr in Hrun.
  apply bind_returns_inv in Hrun as (? & [] & tr0 & _ & Hrun & _). cbn zeta in Hrun.
  unfold py_min, py_max in Hrun.
  rewrite (minimum_shift _ _ Hmin), bind_ret_l in Hrun.
  rewrite (maximum_shift _ _ Hmax), bind_ret_l in Hrun.
  apply bind_returns_inv in Hrun as (? & images & tr1 & Hcall & Hrun & _).
  apply bind_returns_inv in Hrun as (? & [] & tr2 & _ & Hrun & _).
  apply bind_returns_inv in Hrun as (? & doc1 & tr3 & Htitle & Hrun & _).
  apply bind_returns_inv in Hrun as (? & doc2 & tr4 & Hloop & _ & _).
  apply add_heading_returns in Htitle as (Htitle & _ & _).
  destruct (ocr_loop_returns _ (lo + 1) images (minimum_shift _ _ Hmin) _ _ _ _ Hloop)
    as (texts & Hocr & Haccepted).
  exists images, texts. rewrite Z.add_0_l in Haccepted.
  split; [|done]. unfold call_pdf2image in Hcall. by injection Hcall.
Qed.

(** Whatever the libraries do, a selection with least page [lo] and
    greatest page [hi] gets the rasteriser asked for [lo + 1 .. hi + 1],
    right after the announcement of the language. *)
Lemma convert_ocr_starts pdf_bytes pages_to_convert lo hi :
  minimum pages_to_convert = Some lo →
  maximum pages_to_convert = Some hi →
  ∃ rest r,
    convert_ocr E pdf_bytes lang_code pages_to_convert =
    (Show Page Info (msg_using_ocr lang_code) ::
     CallPdf2Image pdf_bytes (lo + 1) (hi + 1) :: rest, r).
Proof.
  intros Hmin Hmax. unfold convert_ocr, show, emit.
  rewrite bind_returns. cbn beta zeta.
  unfold py_min, py_max. rewrite (minimum_shift _ _ Hmin), bind_ret_l.
  rewrite (maximum_shift _ _ Hmax), bind_ret_l.
  unfold call_pdf2image.
  destruct (convert_from_bytes E pdf_bytes (lo + 1) (hi + 1)) as [images|e].
  - rewrite bind_returns. cbn [fst snd app]. by eexists _, _.
  - rewrite bind_raises. cbn [fst snd app]. by eexists _, _.
Qed.

End ocr.

(** C8.  For a non-empty selection (one that has a least page [lo] and a
    greatest page [hi]), [convert_ocr] produces a document exactly when the
    rasteriser returns, the OCR engine returns on every image and
    python-docx takes the title, the headings and the texts; the document
    saved is then the title heading followed, for each image in turn, that
    is for the page numbers [lo + 1], [lo + 2], ... in ascending order, by a
    level-3 heading naming the page, a paragraph with the text read from
    that page, and a page break. *)
Theorem convert_ocr_document E pdf_bytes lang_code pages_to_convert lo hi :
  minimum pages_to_convert = Some lo →
  maximum pages_to_convert = Some hi →
  ∀ docx_bytes,
    returned (convert_ocr E pdf_bytes lang_code pages_to_convert) = Some docx_bytes ↔
    ∃ images texts,
      convert_from_bytes E pdf_bytes (lo + 1) (hi + 1) = Returns images ∧
      Forall2 (λ img text, image_to_string E img lang_code = Returns text) images texts ∧
      docx_text E ("Documento Convertido por OCR (" +:+ lang_code +:+ ")") = Returns tt ∧
      Forall2 (λ page_num text,
                 docx_text E ("--- P" +:+ String (ascii_of_nat 225) "gina " +:+
                              PyStr.of_Z page_num +:+ " ---") = Returns tt ∧
                 docx_text E text = Returns tt)
        (seqZ (lo + 1) (Z.of_nat (length texts))) texts ∧
      docx_bytes =
        docx_save E
          (Heading ("Documento Convertido por OCR (" +:+ lang_code +:+ ")") 0 ::
           concat (zip_with
                     (λ page_num text,
                        [Heading ("--- P" +:+ String (ascii_of_nat 225) "gina " +:+
                                  PyStr.of_Z page_num +:+ " ---") 3;
                         Paragraph text;
                         PageBreak])
                     (seqZ (lo + 1) (Z.of_nat (length texts))) texts)).
Proof.
  intros Hmin Hmax docx_bytes. split.
  - destruct (convert_ocr E pdf_bytes lang_code pages_to_convert) as [tr [docx|e]] eqn:Hrun;
      [|done].
    intros [= ->].
    destruct (convert_ocr_returns E lang_code _ _ lo hi _ _ Hmin Hmax Hrun)
      as (images & texts & Himages & Hocr & Htitle & Haccepted).
    rewrite (convert_ocr_run E lang_code _ _ lo hi images texts) in Hrun by done.
    injection Hrun as _ <-. by exists images, texts.
  - intros (images & texts & Himages & Hocr & Htitle & Haccepted & ->).
    by rewrite (convert_ocr_run E lang_code _ _ lo hi images texts).
Qed.

Lemma convert_ocr_document_witness :
  returned (convert_ocr sample_env [] "spa" [1; 2]) =
  Some (docx_save sample_env
          [Heading "Documento Convertido por OCR (spa)" 0;
           Heading ("--- P" +:+ String (ascii_of_nat 225) "gina 2 ---") 3;
           Paragraph "texto"; PageBreak;
           Heading ("--- P" +:+ String (ascii_of_nat 225) "gina 3 ---") 3;
           Paragraph "texto"; PageBreak]).
Proof.
  apply (convert_ocr_document sample_env [] "spa" [1; 2] 1 2 eq_refl eq_refl).
  exists [[]; []], ["texto"; "texto"]%string.
  split; [reflexivity|]. split; [repeat constructor|]. split; [reflexivity|].
  split; [repeat constructor|reflexivity].
Defined.

Lemma announced_in_events lang_code images first page_num :
  first <= page_num < first + Z.of_nat (length images) →
  Show Page Text (msg_processing page_num) ∈
    concat (zip_with (ocr_page_events lang_code)
              (seqZ first (Z.of_nat (length images))) images).
Proof.
  revert first. induction images as [|img images IH]; intros first Hpage; [simpl in *; lia|].
  cbn [length]. rewrite (seqZ_cons _ (Z.of_nat (S _))) by lia.
  replace (Z.pred (Z.of_nat (S (length images)))) with (Z.of_nat (length images)) by lia.
  cbn [zip_with concat ocr_page_events app].
  destruct (decide (page_num = first)) as [->|Hne]; [left|].
  right. right. apply IH. cbn [length] in Hpage. lia.
Qed.

(** C10, as stated, fails: on a file of two pages the selection [{0, 4}]
    has the rasteriser asked for the pages 1 to 5, but two images come back
    and the pages 1 and 2 only are read; page 5 is never processed. *)
Lemma convert_ocr_short_document :
  trace (convert_ocr two_page_env [] "spa" [0; 4]) =
    [Show Page Info (msg_using_ocr "spa"); CallPdf2Image [] 1 5;
     Show Page Warning msg_ocr_note;
     Show Page Text (msg_processing 1); CallTesseract [] "spa";
     Show Page Text (msg_processing 2); CallTesseract [] "spa"] ∧
  ¬ processes_whole_range two_page_env [] "spa" [0; 4].
Proof.
  assert (Htrace : trace (convert_ocr two_page_env [] "spa" [0; 4]) =
    [Show Page Info (msg_using_ocr "spa"); CallPdf2Image [] 1 5;
     Show Page Warning msg_ocr_note;
     Show Page Text (msg_processing 1); CallTesseract [] "spa";
     Show Page Text (msg_processing 2); CallTesseract [] "spa"])
    by (vm_compute; reflexivity).
  split; [done|]. intros Hall.
  pose proof (Hall 0 4 eq_refl eq_refl 5 ltac:(lia)) as Hin.
  rewrite Htrace in Hin. vm_compute in Hin.
  repeat (apply elem_of_cons in Hin as [Hin|Hin]; [discriminate|]).
  by apply elem_of_nil in Hin.
Qed.

(** C10, amended.  [convert_ocr] asks the rasteriser for the contiguous
    1-indexed range from [min + 1] to [max + 1] of the selection, whatever
    the libraries do afterwards, and reads every image it gets back, not
    only the selected pages: when no library raises and python-docx takes
    the texts, the images are announced and read in order under the page
    numbers [min + 1], [min + 2], ..., and when there is one image for each
    page of the range (the file has those pages) these are the pages
    [min + 1], ..., [max + 1], all of them. *)
Theorem convert_ocr_contiguous_range E pdf_bytes lang_code pages_to_convert lo hi :
  minimum pages_to_convert = Some lo →
  maximum pages_to_convert = Some hi →
  (∃ rest r,
     convert_ocr E pdf_bytes lang_code pages_to_convert =
     (Show Page Info (msg_using_ocr lang_code) ::
      CallPdf2Image pdf_bytes (lo + 1) (hi + 1) :: rest, r)) ∧
  ∀ images texts,
    convert_from_bytes E pdf_bytes (lo + 1) (hi + 1) = Returns images →
    Forall2 (λ img text, image_to_string E img lang_code = Returns text) images texts →
    docx_text E (ocr_title lang_code) = Returns tt →
    Forall2 (page_accepted E) (seqZ (lo + 1) (Z.of_nat (length texts))) texts →
    trace (convert_ocr E pdf_bytes lang_code pages_to_convert) =
      [Show Page Info (msg_using_ocr lang_code);
       CallPdf2Image pdf_bytes (lo + 1) (hi + 1);
       Show Page Warning msg_ocr_note] ++
      concat (zip_with
                (λ page_num img,
                   [Show Page Text (msg_processing page_num); CallTesseract img lang_code])
                (seqZ (lo + 1) (Z.of_nat (length images))) images) ∧
    (length images = Z.to_nat (hi - lo + 1) →
     seqZ (lo + 1) (Z.of_nat (length images)) = seqZ (lo + 1) (hi + 1 - lo) ∧
     processes_whole_range E pdf_bytes lang_code pages_to_convert).
Proof.
  intros Hmin Hmax. split; [by apply convert_ocr_starts|].
  intros images texts Himages Hocr Htitle Haccepted.
  pose proof (convert_ocr_run E lang_code pdf_bytes _ lo hi images texts
                Hmin Hmax Himages Hocr Htitle Haccepted) as Hrun.
  assert (Htrace : trace (convert_ocr E pdf_bytes lang_code pages_to_convert) =
      [Show Page Info (msg_using_ocr lang_code);
       CallPdf2Image pdf_bytes (lo + 1) (hi + 1);
       Show Page Warning msg_ocr_note] ++
      concat (zip_with (ocr_page_events lang_code)
                (seqZ (lo + 1) (Z.of_nat (length images))) images))
    by (by rewrite Hrun).
  split; [done|]. intros Hlen.
  pose proof Hmin as [Hlo _]%minimum_spec. pose proof Hmax as [_ Hhi]%maximum_spec.
  specialize (Hhi lo Hlo).
  assert (Hseq : seqZ (lo + 1) (Z.of_nat (length images)) = seqZ (lo + 1) (hi + 1 - lo)).
  { rewrite Hlen, Z2Nat.id by lia. f_equal. lia. }
  split; [done|].
  intros lo' hi' Hmin' Hmax' page_num Hpage.
  rewrite Hmin in Hmin'. rewrite Hmax in Hmax'. injection Hmin' as <-. injection Hmax' as <-.
  rewrite Htrace. apply elem_of_app. right. apply announced_in_events.
  rewrite Hlen, Z2Nat.id by lia. lia.
Qed.

Lemma convert_ocr_contiguous_range_witness :
  (∃ rest r,
     convert_ocr sample_env [] "spa" [0; 4] =
     (Show Page Info (msg_using_ocr "spa") :: CallPdf2Image [] (0 + 1) (4 + 1) :: rest, r)) ∧
  trace (convert_ocr sample_env [] "spa" [0; 4]) =
    [Show Page Info (msg_using_ocr "spa"); CallPdf2Image [] (0 + 1) (4 + 1);
     Show Page Warning msg_ocr_note] ++
    concat (zip_with
              (λ page_num img,
                 [Show Page Text (msg_processing page_num); CallTesseract img "spa"])
              (seqZ (0 + 1) (Z.of_nat 5)) [[]; []; []; []; []]) ∧
  processes_whole_range sample_env [] "spa" [0; 4].
Proof.
  destruct (convert_ocr_contiguous_range sample_env [] "spa" [0; 4] 0 4 eq_refl eq_refl)
    as [Hstart Hall].
  destruct (Hall [[]; []; []; []; []] (replicate 5 "texto"%string))
    as [Htrace Hwhole].
  - reflexivity.
  - repeat constructor.
  - reflexivity.
  - repeat constructor.
  - split; [exact Hstart|]. split; [exact Htrace|]. apply Hwhole. reflexivity.
Defined.

(** ** The mode: the sidebar and the dispatch *)

Lemma labels_differ : label_digital ≠ label_escaneado.
Proof. by vm_compute. Qed.

Lemma label_digital_tests :
  PyStr.contains "Digital" label_digital = true ∧
  PyStr.contains "Escaneado" label_digital = false.
Proof. split; by vm_compute. Qed.

Lemma label_escaneado_tests :
  PyStr.contains "Digital" label_escaneado = false ∧
  PyStr.contains "Escaneado" label_escaneado = true.
Proof. split; by vm_compute. Qed.

(** C7.  On a conversion request whose page list is not empty, with the
    mode one of the two options of the radio, exactly one strategy runs:
    [convert_digital] on the file and the pages when the mode is the digital
    one, [convert_ocr] on the file, the language and the pages when it is
    the scanned one.  The language reaches the OCR strategy only: in
    digital mode the request does not depend on it. *)
Theorem conversion_request_one_strategy E file_name pdf_bytes page_range_str
    modo_conversion lang tr pages_list :
  parse_page_range E page_range_str 500 = (tr, Returns pages_list) →
  pages_list ≠ [] →
  modo_conversion ∈ mode_options →
  (modo_conversion = label_digital ∧ modo_conversion ≠ label_escaneado ∧
   conversion_request E file_name pdf_bytes page_range_str modo_conversion lang =
     ((tr, Returns tt) ;;;
      show Page Text (msg_pages pages_list) ;;;
      show Page Info msg_start_digital ;;;
      let* docx_bytes := convert_digital E pdf_bytes pages_list in
      offer_download E file_name (Some docx_bytes)) ∧
   ∀ lang', conversion_request E file_name pdf_bytes page_range_str modo_conversion lang' =
            conversion_request E file_name pdf_bytes page_range_str modo_conversion lang)
  ∨
  (modo_conversion = label_escaneado ∧ modo_conversion ≠ label_digital ∧
   conversion_request E file_name pdf_bytes page_range_str modo_conversion lang =
     ((tr, Returns tt) ;;;
      show Page Text (msg_pages pages_list) ;;;
      show Page Info msg_start_ocr ;;;
      let* docx_bytes := convert_ocr E pdf_bytes lang pages_list in
      offer_download E file_name (Some docx_bytes))).
Proof.
  intros Hparse Hne Hmode.
  assert (Hrequest : ∀ l,
    conversion_request E file_name pdf_bytes page_range_str modo_conversion l =
    ((tr, Returns tt) ;;;
     show Page Text (msg_pages pages_list) ;;;
     let* docx_bytes := run_selected_mode E modo_conversion pdf_bytes l pages_list in
     offer_download E file_name docx_bytes)).
  { intros l. unfold conversion_request. rewrite Hparse, !bind_returns. cbn beta.
    by destruct pages_list. }
  pose proof labels_differ as Hdiff.
  apply elem_of_cons in Hmode as [->|Hmode]; [left|right].
  - split; [done|]. split; [done|].
    assert (Hrun : ∀ l, run_selected_mode E label_digital pdf_bytes l pages_list =
                        (show Page Info msg_start_digital ;;;
                         let* d := convert_digital E pdf_bytes pages_list in ret (Some d))).
    { intros l. unfold run_selected_mode. by rewrite (proj1 label_digital_tests). }
    split.
    + rewrite Hrequest, Hrun. do 2 (apply bind_ext; intros _).
      rewrite bind_assoc. apply bind_ext; intros _. apply bind_ret_Some.
    + intros lang'. by rewrite !Hrequest, !Hrun.
  - apply list_elem_of_singleton in Hmode as ->.
    split; [done|]. split; [done|].
    rewrite Hrequest. unfold run_selected_mode.
    rewrite (proj1 label_escaneado_tests), (proj2 label_escaneado_tests).
    do 2 (apply bind_ext; intros _).
    rewrite bind_assoc. apply bind_ext; intros _. apply bind_ret_Some.
Qed.

Lemma conversion_request_one_strategy_witness :
  (label_digital = label_digital ∧ label_digital ≠ label_escaneado ∧
   conversion_request sample_env "a.pdf" [] "1, 3-5" label_digital "spa" =
     (([], Returns tt) ;;;
      show Page Text (msg_pages [0; 2; 3; 4]) ;;;
      show Page Info msg_start_digital ;;;
      let* docx_bytes := convert_digital sample_env [] [0; 2; 3; 4] in
      offer_download sample_env "a.pdf" (Some docx_bytes)) ∧
   ∀ lang', conversion_request sample_env "a.pdf" [] "1, 3-5" label_digital lang' =
            conversion_request sample_env "a.pdf" [] "1, 3-5" label_digital "spa")
  ∨
  (label_digital = label_escaneado ∧ label_digital ≠ label_digital ∧
   conversion_request sample_env "a.pdf" [] "1, 3-5" label_digital "spa" =
     (([], Returns tt) ;;;
      show Page Text (msg_pages [0; 2; 3; 4]) ;;;
      show Page Info msg_start_ocr ;;;
      let* docx_bytes := convert_ocr sample_env [] "spa" [0; 2; 3; 4] in
      offer_download sample_env "a.pdf" (Some docx_bytes))).
Proof.
  apply (conversion_request_one_strategy sample_env "a.pdf" [] "1, 3-5"
           label_digital "spa" [] [0; 2; 3; 4]).
  - vm_compute. reflexivity.
  - discriminate.
  - left.
Defined.

(** C9.  When either binary, [tesseract] or [pdftoppm], is not on the path,
    the sidebar still runs to its end: it shows an error for each missing
    binary and the warning that the OCR mode is disabled, and the mode
    selector is displayed disabled (no enabled selector is displayed). *)
Theorem missing_binary_disables_ocr E answer lang_answer :
  which E "tesseract" = None ∨ which E "pdftoppm" = None →
  ∃ tr result, sidebar E answer lang_answer = (tr, Returns result) ∧
    Radio "Selecciona el tipo de PDF:" mode_options 0 true ∈ tr ∧
    (∀ label options index disabled,
       Radio label options index disabled ∈ tr → disabled = true) ∧
    Show Sidebar Warning msg_ocr_disabled ∈ tr ∧
    (which E "tesseract" = None → Show Sidebar Error "Tesseract NO encontrado." ∈ tr) ∧
    (which E "pdftoppm" = None → Show Sidebar Error "Poppler NO encontrado." ∈ tr).
Proof.
  intros Hmissing. unfold sidebar, system_check, mode_selector, ocr_options.
  destruct (which E "tesseract") as [t|] eqn:Ht, (which E "pdftoppm") as [p|] eqn:Hp;
    [by destruct Hmissing| | |];
    cbv [bind show emit ret is_not_none fst snd negb andb app];
    destruct (PyStr.contains "Escaneado" answer);
    (eexists _, _; split; [reflexivity|]);
    (split; [set_solver|]); (split; [|split; [set_solver|split; intros; set_solver]]);
    intros label options index disabled Hin;
    repeat (apply elem_of_cons in Hin as [Hin|Hin]; [by inversion Hin|]);
    by apply elem_of_nil in Hin.
Qed.

Lemma missing_binary_disables_ocr_witness :
  ∃ tr result, sidebar sample_env label_digital "spa" = (tr, Returns result) ∧
    Radio "Selecciona el tipo de PDF:" mode_options 0 true ∈ tr ∧
    (∀ label options index disabled,
       Radio label options index disabled ∈ tr → disabled = true) ∧
    Show Sidebar Warning msg_ocr_disabled ∈ tr ∧
    (which sample_env "tesseract" = None →
     Show Sidebar Error "Tesseract NO encontrado." ∈ tr) ∧
    (which sample_env "pdftoppm" = None →
     Show Sidebar Error "Poppler NO encontrado." ∈ tr).
Proof.
  apply (missing_binary_disables_ocr sample_env label_digital "spa").
  left. reflexivity.
Defined.

(** * Further properties of the parser *)

Section sorted_lists.
Implicit Types (l : list Z).

Lemma strictly_sorted_nodup l : StronglySorted Z.lt l → NoDup l.
Proof.
  induction 1 as [|x l _ IH Hx]; constructor; [|done].
  intros Hin. rewrite Forall_forall in Hx. specialize (Hx x Hin). lia.
Qed.

(** A strictly increasing list is determined by its members. *)
Lemma strictly_sorted_ext l1 l2 :
  StronglySorted Z.lt l1 → StronglySorted Z.lt l2 →
  (∀ x, x ∈ l1 ↔ x ∈ l2) → l1 = l2.
Proof.
  intros H1 H2 Hmem.
  apply (StronglySorted_unique_strong Z.lt); [intros; lia|done|done|].
  apply NoDup_Permutation; auto using strictly_sorted_nodup.
Qed.

Lemma strictly_sorted_length l lo hi :
  StronglySorted Z.lt l → Forall (λ x, lo <= x < hi) l →
  Z.of_nat (length l) <= Z.max 0 (hi - lo).
Proof.
  intros Hsorted. revert lo. induction Hsorted as [|x l _ IH Hx]; intros lo Hall.
  - simpl. lia.
  - apply Forall_cons in Hall as [Hxb Hall].
    assert (Hl : Forall (λ y, x + 1 <= y < hi) l).
    { rewrite Forall_forall in Hx, Hall |- *. intros y Hy.
      specialize (Hx y Hy). specialize (Hall y Hy). lia. }
    specialize (IH (x + 1) Hl). simpl length. lia.
Qed.

End sorted_lists.

(** Whatever the input, [parse_page_range] returns, having shown nothing or
    the one message, a strictly increasing list of pages of the document. *)
Lemma parse_page_range_result E s max_pages :
  ∃ tr pages, parse_page_range E s max_pages = (tr, Returns pages) ∧
    (tr = [] ∨ tr = [Show Page Error msg_invalid_range]) ∧
    StronglySorted Z.lt pages ∧
    Forall (λ x, 0 <= x < max_pages) pages.
Proof.
  assert (Hall : Forall (λ x, 0 <= x < max_pages) (py_range 0 max_pages)).
  { apply Forall_forall. by intros x ?%py_range_elem_of. }
  destruct s as [|c s].
  { exists [], (py_range 0 max_pages). auto using py_range_strict. }
  rewrite parse_page_range_nonempty by done.
  destruct (parse_parts E max_pages ∅ _) as [pages|] eqn:Hloop.
  - exists [], (py_sorted pages). split; [done|]. split; [by left|].
    split; [apply py_sorted_strict|].
    apply Forall_forall. intros x ?%py_sorted_elem_of.
    eapply parse_parts_bounds; [exact Hloop| |done]. set_solver.
  - exists [Show Page Error msg_invalid_range], (py_range 0 max_pages).
    auto using py_range_strict.
Qed.

(** X1.  The result depends only on which pages the in-range tokens stand
    for: two inputs of numeric tokens that denote the same set of pages give
    the same list, whatever the order of the tokens, their repetitions, or
    the way ranges are cut. *)
Theorem parse_page_range_same_pages E s1 s2 max_pages toks1 toks2 :
  s1 ≠ EmptyString → s2 ≠ EmptyString →
  Forall2 (λ part tok, read_token E part = Some tok) (PyStr.split "," s1) toks1 →
  Forall2 (λ part tok, read_token E part = Some tok) (PyStr.split "," s2) toks2 →
  (∀ x, (∃ tok, tok ∈ toks1 ∧ valid_token max_pages tok ∧ x ∈ token_pages tok) ↔
        (∃ tok, tok ∈ toks2 ∧ valid_token max_pages tok ∧ x ∈ token_pages tok)) →
  parse_page_range E s1 max_pages = parse_page_range E s2 max_pages.
Proof.
  intros Hs1 Hs2 Hread1 Hread2 Hsame.
  destruct (parse_page_range_tokens E s1 max_pages toks1 Hs1 Hread1)
    as (pages1 & -> & Hsorted1 & Hpages1).
  destruct (parse_page_range_tokens E s2 max_pages toks2 Hs2 Hread2)
    as (pages2 & -> & Hsorted2 & Hpages2).
  f_equal. apply strictly_sorted_ext; [done|done|].
  intros x. by rewrite Hpages1, Hpages2, Hsame.
Qed.

Lemma parse_page_range_same_pages_witness :
  parse_page_range sample_env "3-5,1,700" 500 = parse_page_range sample_env "1,3,4-5,4" 500.
Proof.
  apply (parse_page_range_same_pages sample_env "3-5,1,700" "1,3,4-5,4" 500
           [Span 3 5; Single 1; Single 700] [Single 1; Single 3; Span 4 5; Single 4]).
  - discriminate.
  - discriminate.
  - repeat constructor.
  - repeat constructor.
  - intros x. split; intros (tok & Hin & Hvalid & Hx).
    + assert (x = 0 ∨ x = 2 ∨ x = 3 ∨ x = 4) as Hcases.
      { repeat (apply elem_of_cons in Hin as [->|Hin]); simpl in *;
          [apply elem_of_seqZ in Hx|apply list_elem_of_singleton in Hx|lia|
           by apply elem_of_nil in Hin]; lia. }
      destruct Hcases as [->|[->|[->| ->]]].
      * exists (Single 1). split; [set_solver|]. split; [simpl; lia|]. simpl. set_solver.
      * exists (Single 3). split; [set_solver|]. split; [simpl; lia|]. simpl. set_solver.
      * exists (Single 4). split; [set_solver|]. split; [simpl; lia|]. simpl. set_solver.
      * exists (Span 4 5). split; [set_solver|]. split; [simpl; lia|].
        simpl. apply elem_of_seqZ. lia.
    + exists (if decide (x = 0) then Single 1 else Span 3 5).
      assert (x = 0 ∨ x = 2 ∨ x = 3 ∨ x = 4) as Hcases.
      { repeat (apply elem_of_cons in Hin as [->|Hin]); simpl in *;
          [apply list_elem_of_singleton in Hx|apply list_elem_of_singleton in Hx|
           apply elem_of_seqZ in Hx|apply list_elem_of_singleton in Hx|
           by apply elem_of_nil in Hin]; lia. }
      destruct Hcases as [->|[->|[->| ->]]]; simpl;
        (split; [set_solver|]); (split; [lia|]);
        first [by apply list_elem_of_singleton|apply elem_of_seqZ; lia].
Defined.

(** X2.  Round trip: typing the pages of a result back in, as 1-based
    numbers separated by commas, gives the same result (for a non-empty
    result and fewer than [10 ^ 640] pages). *)
Theorem parse_page_range_round_trip E max_pages pages :
  pages ≠ [] →
  StronglySorted Z.lt pages →
  Forall (λ x, 0 <= x < max_pages) pages →
  max_pages < 10 ^ 640 →
  parse_page_range E (PyStr.join "," ((λ x, PyStr.of_Z (x + 1)) <$> pages)) max_pages =
  ret pages.
Proof.
  intros Hne Hsorted Hbounds Hmax.
  set (toks := (λ x, Single (x + 1)) <$> pages).
  assert (Htexts : (λ x, PyStr.of_Z (x + 1)) <$> pages = token_text <$> toks).
  { unfold toks. rewrite <- list_fmap_compose. done. }
  assert (Hvalid : Forall (valid_token max_pages) toks).
  { unfold toks. apply Forall_fmap. eapply Forall_impl; [exact Hbounds|].
    intros x Hx. unfold compose. simpl in *. lia. }
  assert (Htoks : toks ≠ []) by (unfold toks; by destruct pages).
  rewrite Htexts.
  destruct (written_tokens_parts E toks (token_text <$> toks) Htoks) as [Hs Hparts];
    [by eapply plain_tokens_written|].
  destruct (parse_page_range_tokens E _ max_pages toks Hs Hparts)
    as (pages' & -> & Hsorted' & Hpages').
  f_equal. apply strictly_sorted_ext; [done|done|].
  intros x. rewrite Hpages'. rewrite Forall_forall in Hvalid. split.
  - intros (tok & Hin & _ & Hx). unfold toks in Hin.
    apply list_elem_of_fmap in Hin as (y & -> & Hy). simpl in Hx.
    apply list_elem_of_singleton in Hx. by replace x with y by lia.
  - intros Hx. exists (Single (x + 1)). split; [|split].
    + unfold toks. apply list_elem_of_fmap. eauto.
    + apply Hvalid. unfold toks. apply list_elem_of_fmap. eauto.
    + simpl. apply list_elem_of_singleton. lia.
Qed.

Lemma parse_page_range_round_trip_witness :
  parse_page_range sample_env
    (PyStr.join "," ((λ x, PyStr.of_Z (x + 1)) <$> [0; 2; 3; 4])) 500 = ret [0; 2; 3; 4].
Proof.
  apply (parse_page_range_round_trip sample_env 500 [0; 2; 3; 4]).
  - discriminate.
  - repeat constructor; lia.
  - repeat constructor; lia.
  - reflexivity.
Defined.

(** X3.  The result never has more pages than the document: its length is
    at most [max_pages] (and it is empty when [max_pages <= 0]). *)
Theorem parse_page_range_length E s max_pages :
  ∃ tr pages, parse_page_range E s max_pages = (tr, Returns pages) ∧
    Z.of_nat (length pages) <= Z.max 0 max_pages.
Proof.
  destruct (parse_page_range_result E s max_pages) as (tr & pages & Hrun & _ & Hs & Hb).
  exists tr, pages. split; [done|].
  pose proof (strictly_sorted_length pages 0 max_pages Hs Hb). lia.
Qed.

(** ** Inputs that fall back to all pages *)

Lemma split_app_sep sep s1 s2 :
  PyStr.split sep (s1 +:+ String sep s2) = PyStr.split sep s1 ++ PyStr.split sep s2.
Proof.
  induction s1 as [|c s1 IH]; simpl.
  - by rewrite Ascii.eqb_refl.
  - rewrite IH. destruct (Ascii.eqb c sep); [done|].
    pose proof (split_not_nil sep s1). by destruct (PyStr.split sep s1).
Qed.

Lemma split_head sep s : ∃ piece pieces, PyStr.split sep s = piece :: pieces.
Proof.
  pose proof (split_not_nil sep s). destruct (PyStr.split sep s); [done|]. eauto.
Qed.

Lemma contains_char_here c s1 s2 : PyStr.contains_char c (s1 +:+ String c s2) = true.
Proof.
  induction s1 as [|a s1 IH]; simpl; [by rewrite Ascii.eqb_refl|].
  by destruct (Ascii.eqb a c).
Qed.

Lemma fallback_of_bad_part E s max_pages part :
  part ∈ PyStr.split "," s → read_token E part = None → s ≠ EmptyString →
  parse_page_range E s max_pages =
    ([Show Page Error msg_invalid_range], Returns (py_range 0 max_pages)).
Proof.
  intros Hin Hbad Hs. rewrite parse_page_range_nonempty by done.
  by rewrite (parse_parts_raises E max_pages _ ∅) by eauto.
Qed.

Lemma unpack_two_ints_length E pieces r :
  unpack_two_ints E pieces = Some r → length pieces = 2%nat.
Proof.
  unfold unpack_two_ints. destruct pieces as [|p1 [|p2 [|p3 ps]]]; simpl; try done.
  - by destruct (PyInt.int _ p1).
  - destruct (PyInt.int _ p1); [|done]. by destruct (PyInt.int _ p2).
Qed.

(** X4.  A negative number is not read as a number below the range and
    dropped: a part that starts with a dash, such as [-3], is taken for a
    range with nothing before the dash, and the whole input falls back to
    all pages with the message. *)
Theorem parse_page_range_leading_dash E s max_pages rest :
  String "-" rest ∈ PyStr.split "," s →
  parse_page_range E s max_pages =
    ([Show Page Error msg_invalid_range], Returns (py_range 0 max_pages)).
Proof.
  intros Hin. apply (fallback_of_bad_part E s max_pages (String "-" rest)); [done| |].
  - unfold read_token. cbn [PyStr.contains_char]. rewrite Ascii.eqb_refl.
    change (String "-" rest) with (EmptyString +:+ String "-" rest).
    rewrite split_app_sep. destruct (split_head "-" rest) as (p & ps & ->).
    unfold unpack_two_ints. simpl. by destruct ps.
  - intros ->. by apply list_elem_of_singleton in Hin.
Qed.

Lemma parse_page_range_leading_dash_witness :
  parse_page_range sample_env "2,-3" 4 =
    ([Show Page Error msg_invalid_range], Returns (py_range 0 4)).
Proof.
  apply (parse_page_range_leading_dash sample_env "2,-3" 4 "3").
  change (PyStr.split "," "2,-3") with ["2"; "-3"]%string. right. left.
Defined.

(** X5.  A part with more than one dash, such as [1-2-3], is not a range:
    the whole input falls back to all pages with the message. *)
Theorem parse_page_range_two_dashes E s max_pages a b c :
  (a +:+ String "-" (b +:+ String "-" c)) ∈ PyStr.split "," s →
  parse_page_range E s max_pages =
    ([Show Page Error msg_invalid_range], Returns (py_range 0 max_pages)).
Proof.
  intros Hin. eapply fallback_of_bad_part; [exact Hin| |].
  - unfold read_token. rewrite contains_char_here, !split_app_sep.
    destruct (unpack_two_ints E _) as [[start end_]|] eqn:Hunpack; [|done].
    apply unpack_two_ints_length in Hunpack. rewrite !length_app in Hunpack.
    destruct (split_head "-" a) as (pa & psa & Ha).
    destruct (split_head "-" b) as (pb & psb & Hb).
    destruct (split_head "-" c) as (pc & psc & Hc).
    rewrite Ha, Hb, Hc in Hunpack. simpl in Hunpack. lia.
  - intros ->. apply list_elem_of_singleton in Hin. by destruct a.
Qed.

Lemma parse_page_range_two_dashes_witness :
  parse_page_range sample_env "1-2-3" 4 =
    ([Show Page Error msg_invalid_range], Returns (py_range 0 4)).
Proof.
  apply (parse_page_range_two_dashes sample_env "1-2-3" 4 "1" "2" "3"). left.
Defined.

(** X6.  A comma with nothing on one side of it, at the start, at the end
    or doubled, leaves an empty part: the whole input falls back to all
    pages with the message. *)
Theorem parse_page_range_stray_comma E s max_pages :
  (∃ t, s = String "," t) ∨ (∃ t, s = t +:+ ",") ∨
  (∃ t1 t2, s = t1 +:+ String "," (String "," t2)) →
  parse_page_range E s max_pages =
    ([Show Page Error msg_invalid_range], Returns (py_range 0 max_pages)).
Proof.
  intros Hshape.
  assert (Hempty : EmptyString ∈ PyStr.split "," s).
  { destruct Hshape as [[t ->]|[[t ->]|(t1 & t2 & ->)]].
    - simpl. left.
    - rewrite split_app_sep. apply elem_of_app. right. left.
    - rewrite split_app_sep. apply elem_of_app. right. simpl. left. }
  apply (fallback_of_bad_part E s max_pages EmptyString); [done|done|].
  destruct Hshape as [[t ->]|[[t ->]|(t1 & t2 & ->)]]; [done|by destruct t|by destruct t1].
Qed.

Lemma parse_page_range_stray_comma_witness :
  parse_page_range sample_env "1,2," 4 =
    ([Show Page Error msg_invalid_range], Returns (py_range 0 4)).
Proof.
  apply (parse_page_range_stray_comma sample_env "1,2," 4).
  right. left. exists "1,2"%string. reflexivity.
Defined.

(** * Further properties of [convert_ocr] *)

Lemma minimum_fmap_succ l :
  minimum ((λ p, p + 1) <$> l) = (λ m, m + 1) <$> minimum l.
Proof.
  destruct (minimum l) as [lo|] eqn:Hmin; simpl.
  - by apply minimum_shift.
  - by destruct l.
Qed.

Lemma maximum_fmap_succ l :
  maximum ((λ p, p + 1) <$> l) = (λ m, m + 1) <$> maximum l.
Proof.
  destruct (maximum l) as [hi|] eqn:Hmax; simpl.
  - by apply maximum_shift.
  - by destruct l.
Qed.

Lemma ocr_loop_minimum E lang_code l1 l2 images :
  minimum l1 = minimum l2 →
  ∀ i doc, ocr_loop E lang_code l1 i images doc = ocr_loop E lang_code l2 i images doc.
Proof.
  intros Hmin. induction images as [|img images IH]; intros i doc; [done|].
  cbn [ocr_loop]. unfold py_min. rewrite Hmin.
  apply bind_ext; intros first. apply bind_ext; intros _. apply bind_ext; intros text.
  apply bind_ext; intros doc1. apply bind_ext; intros doc2. apply IH.
Qed.

(** X7.  [convert_ocr] looks at the selection only through its least and
    its greatest page: two selections with the same least and greatest
    pages, such as [[0; 4]] and [[0; 1; 2; 3; 4]], give the same calls, the
    same messages and the same document, whatever the libraries do. *)
Theorem convert_ocr_least_greatest E pdf_bytes lang_code pages1 pages2 :
  minimum pages1 = minimum pages2 →
  maximum pages1 = maximum pages2 →
  convert_ocr E pdf_bytes lang_code pages1 = convert_ocr E pdf_bytes lang_code pages2.
Proof.
  intros Hmin Hmax. unfold convert_ocr. apply bind_ext; intros _. cbn zeta.
  assert (Hmin1 : minimum ((λ p, p + 1) <$> pages1) = minimum ((λ p, p + 1) <$> pages2))
    by (by rewrite !minimum_fmap_succ, Hmin).
  unfold py_min, py_max. rewrite Hmin1, !maximum_fmap_succ, Hmax.
  apply bind_ext; intros first_page. apply bind_ext; intros last_page.
  apply bind_ext; intros images. apply bind_ext; intros _.
  apply bind_ext; intros doc.
  by rewrite (ocr_loop_minimum E lang_code _ _ images Hmin1).
Qed.

Lemma convert_ocr_least_greatest_witness :
  convert_ocr sample_env [] "spa" [0; 4] = convert_ocr sample_env [] "spa" [4; 2; 0; 0].
Proof.
  apply (convert_ocr_least_greatest sample_env [] "spa" [0; 4] [4; 2; 0; 0]);
    reflexivity.
Defined.

(** X9.  When the rasteriser raises, [convert_ocr] raises the same
    exception right after the call: the note on the continuous range is not
    shown, the OCR engine is not called, no document is made. *)
Theorem convert_ocr_rasteriser_fails E pdf_bytes lang_code pages_to_convert lo hi e :
  minimum pages_to_convert = Some lo →
  maximum pages_to_convert = Some hi →
  convert_from_bytes E pdf_bytes (lo + 1) (hi + 1) = Raises e →
  convert_ocr E pdf_bytes lang_code pages_to_convert =
    ([Show Page Info (msg_using_ocr lang_code); CallPdf2Image pdf_bytes (lo + 1) (hi + 1)],
     Raises e).
Proof.
  intros Hmin Hmax Hraise. unfold convert_ocr, show, emit.
  rewrite bind_returns. cbn beta zeta.
  unfold py_min, py_max. rewrite (minimum_shift _ _ Hmin), bind_ret_l.
  rewrite (maximum_shift _ _ Hmax), bind_ret_l.
  unfold call_pdf2image. by rewrite Hraise.
Qed.

Lemma convert_ocr_rasteriser_fails_witness :
  convert_ocr
    {| max_str_digits := 4300; which := λ _, None; pdf2docx := λ pdf _, Returns pdf;
       convert_from_bytes := λ _ _ _, Raises (LibraryError "Unable to get page count.");
       image_to_string := λ _ _, Returns "texto"%string; docx_text := λ _, Returns tt; docx_save := λ _, [];
       splitext_root := λ name, name |} [] "spa" [2; 7] =
    ([Show Page Info (msg_using_ocr "spa"); CallPdf2Image [] 3 8],
     Raises (LibraryError "Unable to get page count.")).
Proof.
  apply (convert_ocr_rasteriser_fails _ [] "spa" [2; 7] 2 7); reflexivity.
Defined.

Lemma ocr_loop_raises E lang_code pages_1_indexed first before texts img after e :
  minimum pages_1_indexed = Some first →
  Forall2 (λ img text, image_to_string E img lang_code = Returns text) before texts →
  ∀ i doc,
    Forall2 (page_accepted E) (seqZ (i + first) (Z.of_nat (length texts))) texts →
    page_fails E lang_code (i + first + Z.of_nat (length before)) img e →
    ocr_loop E lang_code pages_1_indexed i (before ++ img :: after) doc =
    (concat (zip_with (ocr_page_events lang_code)
               (seqZ (i + first) (Z.of_nat (length before))) before) ++
     ocr_page_events lang_code (i + first + Z.of_nat (length before)) img,
     Raises e).
Proof.
  intros Hmin Hocr.
  induction Hocr as [|img' text before texts Htext _ IH]; intros i doc.
  - intros _ Hfails. cbn [app ocr_loop length]. unfold py_min. rewrite Hmin, bind_ret_l.
    unfold show, emit, call_tesseract. rewrite bind_returns. cbn [fst snd].
    rewrite Z.add_0_r in Hfails |- *. cbn [seqZ zip_with concat app ocr_page_events].
    destruct Hfails as [Hraise|(text & Htext & [Hhead|[Hhead Hpar]])].
    + by rewrite Hraise.
    + rewrite Htext, bind_returns. cbn [fst snd]. unfold add_heading. by rewrite Hhead.
    + rewrite Htext, bind_returns. cbn [fst snd].
      rewrite (add_heading_accepted _ _ _ _ Hhead), bind_ret_l.
      unfold add_paragraph. by rewrite Hpar.
  - cbn [length]. rewrite !(seqZ_cons _ (Z.of_nat (S _))) by lia.
    replace (Z.pred (Z.of_nat (S (length before)))) with (Z.of_nat (length before)) by lia.
    replace (Z.pred (Z.of_nat (S (length texts)))) with (Z.of_nat (length texts)) by lia.
    replace (Z.succ (i + first)) with (i + 1 + first) by lia.
    replace (i + first + Z.of_nat (S (length before)))
      with (i + 1 + first + Z.of_nat (length before)) by lia.
    intros [[Hhead Hpar] Hrest]%Forall2_cons Hfails.
    cbn [app ocr_loop]. unfold py_min. rewrite Hmin, bind_ret_l.
    unfold show, emit, call_tesseract. rewrite Htext.
    rewrite !bind_returns. cbn [fst snd].
    rewrite (add_heading_accepted _ _ _ _ Hhead), bind_ret_l.
    rewrite (add_paragraph_accepted _ _ _ Hpar), bind_ret_l.
    rewrite (IH _ _ Hrest Hfails). cbn [fst snd].
    cbn [zip_with concat ocr_page_events app]. done.
Qed.

Lemma convert_ocr_page_fails E pdf_bytes lang_code pages_to_convert lo hi
    before texts img after e :
  minimum pages_to_convert = Some lo →
  maximum pages_to_convert = Some hi →
  convert_from_bytes E pdf_bytes (lo + 1) (hi + 1) = Returns (before ++ img :: after) →
  Forall2 (λ img text, image_to_string E img lang_code = Returns text) before texts →
  docx_text E (ocr_title lang_code) = Returns tt →
  Forall2 (page_accepted E) (seqZ (lo + 1) (Z.of_nat (length texts))) texts →
  page_fails E lang_code (lo + 1 + Z.of_nat (length before)) img e →
  convert_ocr E pdf_bytes lang_code pages_to_convert =
    ([Show Page Info (msg_using_ocr lang_code);
      CallPdf2Image pdf_bytes (lo + 1) (hi + 1);
      Show Page Warning msg_ocr_note] ++
     concat (zip_with (ocr_page_events lang_code)
               (seqZ (lo + 1) (Z.of_nat (length before))) before) ++
     ocr_page_events lang_code (lo + 1 + Z.of_nat (length before)) img,
     Raises e).
Proof.
  intros Hmin Hmax Himages Hocr Htitle Haccepted Hfails. unfold convert_ocr, show, emit.
  rewrite bind_returns. cbn beta zeta.
  unfold py_min, py_max. rewrite (minimum_shift _ _ Hmin), bind_ret_l.
  rewrite (maximum_shift _ _ Hmax), bind_ret_l.
  unfold call_pdf2image. rewrite Himages, bind_returns. cbn beta.
  rewrite bind_returns. cbn beta.
  rewrite (add_heading_accepted _ _ _ _ Htitle), bind_ret_l.
  rewrite (ocr_loop_raises E lang_code _ (lo + 1) before texts img after e)
    by (eauto using minimum_shift || by rewrite Z.add_0_l).
  rewrite bind_raises. cbn [fst snd app]. by rewrite Z.add_0_l.
Qed.

(** X10.  When the OCR engine raises on an image, the pages before it
    having been read and taken by python-docx, [convert_ocr] raises the same
    exception there: that page has been announced and submitted, the pages
    after it are not touched, and no document is made. *)
Theorem convert_ocr_engine_fails E pdf_bytes lang_code pages_to_convert lo hi
    before texts img after e :
  minimum pages_to_convert = Some lo →
  maximum pages_to_convert = Some hi →
  convert_from_bytes E pdf_bytes (lo + 1) (hi + 1) = Returns (before ++ img :: after) →
  Forall2 (λ img text, image_to_string E img lang_code = Returns text) before texts →
  docx_text E (ocr_title lang_code) = Returns tt →
  Forall2 (page_accepted E) (seqZ (lo + 1) (Z.of_nat (length texts))) texts →
  image_to_string E img lang_code = Raises e →
  convert_ocr E pdf_bytes lang_code pages_to_convert =
    ([Show Page Info (msg_using_ocr lang_code);
      CallPdf2Image pdf_bytes (lo + 1) (hi + 1);
      Show Page Warning msg_ocr_note] ++
     concat (zip_with (ocr_page_events lang_code)
               (seqZ (lo + 1) (Z.of_nat (length before))) before) ++
     ocr_page_events lang_code (lo + 1 + Z.of_nat (length before)) img,
     Raises e).
Proof.
  intros Hmin Hmax Himages Hocr Htitle Haccepted Hraise.
  apply (convert_ocr_page_fails E _ _ _ lo hi before texts img after e); try done.
  by left.
Qed.

Lemma convert_ocr_engine_fails_witness :
  convert_ocr
    {| max_str_digits := 4300; which := λ _, None; pdf2docx := λ pdf _, Returns pdf;
       convert_from_bytes := λ _ _ _, Returns [[]; [Byte.x01]; []];
       image_to_string := λ img _,
         match img with
         | [] => Returns "texto"%string
         | _ => Raises (LibraryError "tesseract is not installed")
         end;
       docx_text := sample_docx_text; docx_save := sample_docx_save;
       splitext_root := λ name, name |} [] "spa" [0; 2] =
    ([Show Page Info (msg_using_ocr "spa"); CallPdf2Image [] 1 3;
      Show Page Warning msg_ocr_note] ++
     concat (zip_with (ocr_page_events "spa") (seqZ 1 (Z.of_nat 1)) [[]]) ++
     ocr_page_events "spa" (0 + 1 + Z.of_nat 1) [Byte.x01],
     Raises (LibraryError "tesseract is not installed")).
Proof.
  apply (convert_ocr_engine_fails _ [] "spa" [0; 2] 0 2 [[]] ["texto"%string]
           [Byte.x01] [[]]).
  - reflexivity.
  - reflexivity.
  - reflexivity.
  - repeat constructor.
  - reflexivity.
  - repeat constructor.
  - reflexivity.
Defined.

(** X22.  When python-docx refuses the text read from a page, as it does a
    text with a control character, the pages before it having been read and
    taken, [convert_ocr] raises python-docx's exception at that page: the
    page has been announced and read by the OCR engine, the pages after it
    are not touched, and no document is made.  With an OCR engine that ends
    every page with a form feed this happens on the first page. *)
Theorem convert_ocr_text_refused E pdf_bytes lang_code pages_to_convert lo hi
    before texts img text after e :
  minimum pages_to_convert = Some lo →
  maximum pages_to_convert = Some hi →
  convert_from_bytes E pdf_bytes (lo + 1) (hi + 1) = Returns (before ++ img :: after) →
  Forall2 (λ img text, image_to_string E img lang_code = Returns text) before texts →
  docx_text E (ocr_title lang_code) = Returns tt →
  Forall2 (page_accepted E) (seqZ (lo + 1) (Z.of_nat (length texts))) texts →
  image_to_string E img lang_code = Returns text →
  docx_text E (page_heading (lo + 1 + Z.of_nat (length before))) = Returns tt →
  docx_text E text = Raises e →
  convert_ocr E pdf_bytes lang_code pages_to_convert =
    ([Show Page Info (msg_using_ocr lang_code);
      CallPdf2Image pdf_bytes (lo + 1) (hi + 1);
      Show Page Warning msg_ocr_note] ++
     concat (zip_with (ocr_page_events lang_code)
               (seqZ (lo + 1) (Z.of_nat (length before))) before) ++
     [Show Page Text (msg_processing (lo + 1 + Z.of_nat (length before)));
      CallTesseract img lang_code],
     Raises e).
Proof.
  intros Hmin Hmax Himages Hocr Htitle Haccepted Htext Hhead Hrefused.
  apply (convert_ocr_page_fails E _ _ _ lo hi before texts img after e); try done.
  right. exists text. split; [done|]. right. by split.
Qed.

Lemma convert_ocr_text_refused_witness :
  convert_ocr form_feed_env [] "spa" [0; 2] =
    ([Show Page Info (msg_using_ocr "spa"); CallPdf2Image [] (0 + 1) (2 + 1);
      Show Page Warning msg_ocr_note] ++
     concat (zip_with (ocr_page_events "spa") (seqZ (0 + 1) (Z.of_nat 0)) []) ++
     [Show Page Text (msg_processing (0 + 1 + Z.of_nat 0)); CallTesseract [] "spa"],
     Raises (LibraryError "All strings must be XML compatible: Unicode or ASCII, no NULL bytes or control characters")).
Proof.
  apply (convert_ocr_text_refused form_feed_env [] "spa" [0; 2] 0 2 [] [] []
           ("texto" +:+ String (ascii_of_nat 12) EmptyString) [[]; []]).
  - reflexivity.
  - reflexivity.
  - reflexivity.
  - constructor.
  - reflexivity.
  - constructor.
  - reflexivity.
  - reflexivity.
  - reflexivity.
Defined.

(** ** Traces *)

Lemma trace_bind {A B} (m : M A) (k : A → M B) :
  trace (bind m k) =
  trace m ++ match m.2 with
             | Returns a => trace (k a)
             | Raises _ => []
             end.
Proof.
  destruct m as [tr [a|e]]; unfold bind, trace; simpl.
  - by destruct (k a).
  - by rewrite (right_id_L [] (++)).
Qed.

Lemma trace_try_except {A} (body : M A) (handler : exn → M A) :
  trace (try_except body handler) =
  trace body ++ match body.2 with
                | Returns _ => []
                | Raises e => trace (handler e)
                end.
Proof.
  destruct body as [tr [a|e]]; unfold try_except, trace; simpl.
  - by rewrite (right_id_L [] (++)).
  - by destruct (handler e).
Qed.

Lemma trace_add_heading {B} E doc text level (k : document → M B) :
  trace (bind (add_heading E doc text level) k) =
  match docx_text E text with
  | Returns _ => trace (k (doc ++ [Heading text level]))
  | Raises _ => []
  end.
Proof.
  unfold add_heading. destruct (docx_text E text) as [[]|e]; cbn; [|done].
  by destruct (k _).
Qed.

Lemma trace_add_paragraph {B} E doc text (k : document → M B) :
  trace (bind (add_paragraph E doc text) k) =
  match docx_text E text with
  | Returns _ => trace (k (doc ++ [Paragraph text]))
  | Raises _ => []
  end.
Proof.
  unfold add_paragraph. destruct (docx_text E text) as [[]|e]; cbn; [|done].
  by destruct (k _).
Qed.

Lemma ocr_loop_events E pdf_bytes lang_code pages_1_indexed lo hi images :
  minimum pages_1_indexed = Some (lo + 1) →
  ∀ i doc, 0 <= i →
    Forall (ocr_event pdf_bytes lang_code lo hi)
      (trace (ocr_loop E lang_code pages_1_indexed i images doc)).
Proof.
  intros Hmin. induction images as [|img images IH]; intros i doc Hi; [constructor|].
  cbn [ocr_loop]. unfold py_min. rewrite Hmin, bind_ret_l.
  rewrite !trace_bind. cbn [snd show emit trace fst].
  apply Forall_app. split.
  { repeat constructor. exists (i + (lo + 1)). split; [lia|done]. }
  unfold call_tesseract. cbn [fst snd]. apply Forall_cons. split; [done|].
  destruct (image_to_string E img lang_code) as [text|e]; [|constructor].
  rewrite trace_add_heading.
  destruct (docx_text E (page_heading _)) as [[]|e]; [|constructor].
  rewrite trace_add_paragraph.
  destruct (docx_text E text) as [[]|e]; [|constructor].
  apply IH. lia.
Qed.

(** Every event of a run of [convert_ocr] on a selection with least page
    [lo] and greatest page [hi], whatever the libraries do. *)
Lemma convert_ocr_events E pdf_bytes lang_code pages_to_convert lo hi :
  minimum pages_to_convert = Some lo →
  maximum pages_to_convert = Some hi →
  Forall (ocr_event pdf_bytes lang_code lo hi)
    (trace (convert_ocr E pdf_bytes lang_code pages_to_convert)).
Proof.
  intros Hmin Hmax. unfold convert_ocr.
  rewrite trace_bind. cbn [show emit trace fst snd]. cbn zeta.
  apply Forall_app. split; [by repeat constructor|].
  unfold py_min, py_max. rewrite (minimum_shift _ _ Hmin), bind_ret_l.
  rewrite (maximum_shift _ _ Hmax), bind_ret_l.
  rewrite trace_bind. unfold call_pdf2image. cbn [trace fst snd].
  apply Forall_cons. split; [done|].
  destruct (convert_from_bytes E pdf_bytes (lo + 1) (hi + 1)) as [images|e]; [|constructor].
  rewrite trace_bind. cbn [show emit trace fst snd].
  apply Forall_cons. split; [done|].
  rewrite trace_add_heading.
  destruct (docx_text E (ocr_title lang_code)) as [[]|e]; [|constructor].
  rewrite trace_bind. apply Forall_app. split.
  - apply ocr_loop_events; [by apply minimum_shift|done].
  - destruct (ocr_loop E lang_code _ 0 images _) as [tr [doc|e]]; constructor.
Qed.

(** X8.  [convert_ocr] stops before any library call exactly when the
    selection is empty: it then raises the [ValueError] of [min], having
    only announced the language.  On any other selection it goes on to the
    rasteriser, which it asks for the range from the least to the greatest
    selected page, whatever the libraries do. *)
Theorem convert_ocr_empty_selection E pdf_bytes lang_code pages_to_convert :
  (pages_to_convert = [] →
   convert_ocr E pdf_bytes lang_code pages_to_convert =
     ([Show Page Info (msg_using_ocr lang_code)], Raises ValueError)) ∧
  (pages_to_convert ≠ [] →
   ∃ lo hi rest r,
     minimum pages_to_convert = Some lo ∧ maximum pages_to_convert = Some hi ∧
     convert_ocr E pdf_bytes lang_code pages_to_convert =
       (Show Page Info (msg_using_ocr lang_code) ::
        CallPdf2Image pdf_bytes (lo + 1) (hi + 1) :: rest, r)).
Proof.
  split; [by intros ->|]. intros Hne.
  destruct (minimum_is_Some pages_to_convert Hne) as [lo Hmin].
  destruct (maximum_is_Some pages_to_convert Hne) as [hi Hmax].
  destruct (convert_ocr_starts E lang_code pdf_bytes _ lo hi Hmin Hmax) as (rest & r & Hrun).
  by exists lo, hi, rest, r.
Qed.

Lemma convert_ocr_empty_selection_witness :
  (([] : list Z) = [] →
   convert_ocr sample_env [] "spa" [] =
     ([Show Page Info (msg_using_ocr "spa")], Raises ValueError)) ∧
  (([3; 1] : list Z) ≠ [] →
   ∃ lo hi rest r,
     minimum [3; 1] = Some lo ∧ maximum [3; 1] = Some hi ∧
     convert_ocr sample_env [] "spa" [3; 1] =
       (Show Page Info (msg_using_ocr "spa") ::
        CallPdf2Image [] (lo + 1) (hi + 1) :: rest, r)).
Proof.
  split.
  - apply (convert_ocr_empty_selection sample_env [] "spa" []).
  - apply (convert_ocr_empty_selection sample_env [] "spa" [3; 1]).
Defined.

(** * Further properties of the conversion request *)

Lemma ocr_event_call_ok pdf_bytes lang lo hi ev :
  0 <= lo → lo <= hi → hi <= 499 →
  ocr_event pdf_bytes lang lo hi ev → request_call_ok pdf_bytes lang ev.
Proof.
  intros Hlo Hle Hhi. destruct ev as [w k text| | | | |pdf first_page last_page|img l];
    simpl; try done.
  intros (-> & -> & ->). repeat split; lia.
Qed.

Lemma offer_download_events E file_name docx_bytes pdf_bytes lang :
  Forall (request_call_ok pdf_bytes lang) (trace (offer_download E file_name docx_bytes)).
Proof. destruct docx_bytes; by repeat constructor. Qed.

Lemma run_selected_mode_events E modo_conversion pdf_bytes lang pages_list :
  pages_list ≠ [] → StronglySorted Z.lt pages_list →
  Forall (λ x, 0 <= x < 500) pages_list →
  Forall (request_call_ok pdf_bytes lang)
    (trace (run_selected_mode E modo_conversion pdf_bytes lang pages_list)).
Proof.
  intros Hne Hsorted Hbounds. unfold run_selected_mode.
  destruct (PyStr.contains "Digital" modo_conversion).
  - rewrite !trace_bind. cbn [show emit trace fst snd convert_digital call_pdf2docx].
    apply Forall_cons. split; [done|]. apply Forall_cons. split.
    + simpl. repeat split; [done|done|].
      eapply Forall_impl; [exact Hbounds|]. simpl. lia.
    + destruct (pdf2docx E pdf_bytes pages_list); constructor.
  - destruct (PyStr.contains "Escaneado" modo_conversion); [|constructor].
    rewrite !trace_bind. cbn [show emit trace fst snd].
    apply Forall_cons. split; [done|]. apply Forall_app. split.
    + destruct (minimum_is_Some pages_list Hne) as [lo Hmin].
      destruct (maximum_is_Some pages_list Hne) as [hi Hmax].
      pose proof (convert_ocr_events E pdf_bytes lang pages_list lo hi Hmin Hmax) as Hocr.
      apply minimum_spec in Hmin as [Hlo _]. apply maximum_spec in Hmax as [Hhi Hgreatest].
      rewrite Forall_forall in Hbounds.
      pose proof (Hbounds lo Hlo). pose proof (Hbounds hi Hhi). pose proof (Hgreatest lo Hlo).
      eapply Forall_impl; [exact Hocr|]. intros ev. apply ocr_event_call_ok; lia.
    + destruct (convert_ocr E pdf_bytes lang pages_list) as [tr [docx|e]]; constructor.
Qed.

(** Whatever the range typed, the mode and the libraries, the calls of a
    conversion request are within bounds. *)
Lemma conversion_request_events E file_name pdf_bytes page_range_str modo_conversion lang :
  Forall (request_call_ok pdf_bytes lang)
    (trace (conversion_request E file_name pdf_bytes page_range_str modo_conversion lang)).
Proof.
  unfold conversion_request.
  destruct (parse_page_range_result E page_range_str 500)
    as (tr & pages & -> & Htr & Hsorted & Hbounds).
  rewrite trace_bind. cbn [trace fst snd]. apply Forall_app. split.
  { destruct Htr as [-> | ->]; by repeat constructor. }
  destruct pages as [|p pages]; [by repeat constructor|].
  rewrite !trace_bind. cbn [show emit trace fst snd].
  apply Forall_cons. split; [done|]. apply Forall_app. split.
  - by apply run_selected_mode_events.
  - destruct (run_selected_mode E modo_conversion pdf_bytes lang (p :: pages))
      as [tr' [docx|e]]; [apply offer_download_events|constructor].
Qed.

Lemma report_failure_returns e : ∃ tr, report_failure e = (tr, Returns tt).
Proof.
  unfold report_failure.
  destruct (PyStr.contains "tesseract" _), (_ || _); by eexists.
Qed.

Lemma report_failure_shows e ev :
  ev ∈ trace (report_failure e) → ∃ text, ev = Show Page Error text.
Proof.
  unfold report_failure.
  destruct (PyStr.contains "tesseract" _), (_ || _); cbn;
    intros Hin; repeat (apply elem_of_cons in Hin as [->|Hin]; [by eexists|]);
    by apply elem_of_nil in Hin.
Qed.

Lemma handle_request_events E file_name pdf_bytes page_range_str modo_conversion lang :
  Forall (request_call_ok pdf_bytes lang)
    (trace (handle_request E file_name pdf_bytes page_range_str modo_conversion lang)).
Proof.
  unfold handle_request. rewrite trace_try_except. apply Forall_app. split.
  - apply conversion_request_events.
  - destruct (conversion_request E _ _ _ _ _).2 as [u|e]; [constructor|].
    apply Forall_forall. intros ev (text & ->)%report_failure_shows. done.
Qed.

(** X11.  Whatever is typed as the range, whichever the mode and whatever
    the libraries do, the rasteriser is only ever asked, during a request,
    for a range [first .. last] of the uploaded file with
    [1 <= first <= last <= 500]. *)
Theorem handle_request_rasteriser_range E file_name pdf_bytes page_range_str
    modo_conversion lang pdf first_page last_page :
  CallPdf2Image pdf first_page last_page ∈
    trace (handle_request E file_name pdf_bytes page_range_str modo_conversion lang) →
  pdf = pdf_bytes ∧ 1 <= first_page ∧ first_page <= last_page ∧ last_page <= 500.
Proof.
  intros Hin.
  pose proof (handle_request_events E file_name pdf_bytes page_range_str
                modo_conversion lang) as Hall.
  rewrite Forall_forall in Hall. exact (Hall _ Hin).
Qed.

Lemma handle_request_rasteriser_range_witness :
  ([] : bytes) = [] ∧ 1 <= 3 ∧ 3 <= 9 ∧ 9 <= 500.
Proof.
  apply (handle_request_rasteriser_range sample_env "a.pdf" [] "9,3-4" label_escaneado "spa").
  vm_compute. right. right. right. left.
Defined.

(** X12.  Whatever is typed as the range, whichever the mode and whatever
    the libraries do, pdf2docx is only ever given, during a request, the
    uploaded file and a non-empty, strictly increasing list of 0-indexed
    pages between 0 and 499. *)
Theorem handle_request_pdf2docx_pages E file_name pdf_bytes page_range_str
    modo_conversion lang pdf pages :
  CallPdf2Docx pdf pages ∈
    trace (handle_request E file_name pdf_bytes page_range_str modo_conversion lang) →
  pdf = pdf_bytes ∧ pages ≠ [] ∧ StronglySorted Z.lt pages ∧
  Forall (λ x, 0 <= x <= 499) pages.
Proof.
  intros Hin.
  pose proof (handle_request_events E file_name pdf_bytes page_range_str
                modo_conversion lang) as Hall.
  rewrite Forall_forall in Hall. exact (Hall _ Hin).
Qed.

Lemma handle_request_pdf2docx_pages_witness :
  ([] : bytes) = [] ∧ [1; 3; 4] ≠ [] ∧ StronglySorted Z.lt [1; 3; 4] ∧
  Forall (λ x, 0 <= x <= 499) [1; 3; 4].
Proof.
  apply (handle_request_pdf2docx_pages sample_env "a.pdf" [] "4-5, 2,900" label_digital "spa").
  vm_compute. right. right. left.
Defined.

(** A request with a non-empty page list, in either mode of the radio: what
    it shows and returns, by the outcome of the strategy. *)
Lemma handle_request_selected E file_name pdf_bytes page_range_str modo_conversion lang
    tr0 pages_list :
  modo_conversion ∈ mode_options →
  parse_page_range E page_range_str 500 = (tr0, Returns pages_list) →
  pages_list ≠ [] →
  handle_request E file_name pdf_bytes page_range_str modo_conversion lang =
  match selected_strategy E modo_conversion pdf_bytes lang pages_list with
  | (tr1, Returns docx_bytes) =>
      (tr0 ++ [Show Page Text (msg_pages pages_list);
               Show Page Info (msg_start modo_conversion)] ++ tr1 ++
       [Show Page Success msg_success;
        DownloadButton "Descargar archivo Word (.docx)" docx_bytes
          (splitext_root E file_name +:+ "_convertido.docx") docx_mime],
       Returns tt)
  | (tr1, Raises e) =>
      (tr0 ++ [Show Page Text (msg_pages pages_list);
               Show Page Info (msg_start modo_conversion)] ++ tr1 ++
       trace (report_failure e),
       Returns tt)
  end.
Proof.
  intros Hmode Hparse Hne. unfold handle_request, conversion_request.
  rewrite Hparse, bind_returns. cbn beta.
  destruct pages_list as [|p pages]; [done|].
  set (pages_list := p :: pages) in *.
  assert (Hrun : run_selected_mode E modo_conversion pdf_bytes lang pages_list =
                 (show Page Info (msg_start modo_conversion) ;;;
                  let* docx_bytes := selected_strategy E modo_conversion pdf_bytes lang
                                       pages_list in
                  ret (Some docx_bytes))).
  { unfold run_selected_mode, selected_strategy, msg_start.
    apply elem_of_cons in Hmode as [->|Hmode].
    - by rewrite (proj1 label_digital_tests), bool_decide_eq_true_2.
    - apply list_elem_of_singleton in Hmode as ->.
      rewrite (proj1 label_escaneado_tests), (proj2 label_escaneado_tests).
      rewrite bool_decide_eq_false_2; [done|]. intros Heq. by apply labels_differ. }
  rewrite Hrun. clear Hrun.
  destruct (selected_strategy E modo_conversion pdf_bytes lang pages_list)
    as [tr1 [docx_bytes|e]].
  - unfold offer_download, show, emit, bind, ret, try_except. cbn [fst snd].
    f_equal. rewrite !(right_id_L [] (++)). cbn [app].
    by rewrite <- ?app_assoc.
  - destruct (report_failure_returns e) as [tr2 Hreport].
    unfold show, emit, bind, ret, try_except. cbn [fst snd].
    rewrite Hreport. unfold trace. cbn [fst]. f_equal.
    rewrite <- !app_assoc. done.
Qed.

Lemma handle_request_no_pages E file_name pdf_bytes page_range_str modo_conversion lang tr0 :
  parse_page_range E page_range_str 500 = (tr0, Returns []) →
  handle_request E file_name pdf_bytes page_range_str modo_conversion lang =
    (tr0 ++ [Show Page Error msg_no_pages], Returns tt).
Proof.
  intros Hparse. unfold handle_request, conversion_request.
  by rewrite Hparse, bind_returns.
Qed.

Lemma ocr_event_no_success pdf_bytes lang lo hi ev :
  ocr_event pdf_bytes lang lo hi ev → no_success ev.
Proof.
  destruct ev as [[|] [| | | | | |] text| | | | | |]; simpl; try done.
Qed.

Lemma ocr_event_library_call pdf_bytes lang lo hi ev :
  ocr_event pdf_bytes lang lo hi ev → is_conversion_call ev = true →
  (∃ first_page last_page, ev = CallPdf2Image pdf_bytes first_page last_page) ∨
  (∃ img, ev = CallTesseract img lang).
Proof.
  destruct ev as [w k text| | | | |pdf first_page last_page|img l]; simpl; try done.
  - intros (-> & _) _. left. eauto.
  - intros -> _. right. eauto.
Qed.

Lemma convert_ocr_events_of_any E pdf_bytes lang_code pages_to_convert :
  ∃ lo hi, Forall (ocr_event pdf_bytes lang_code lo hi)
             (trace (convert_ocr E pdf_bytes lang_code pages_to_convert)).
Proof.
  destruct pages_to_convert as [|p pages].
  - exists 0, 0. by repeat constructor.
  - destruct (minimum_is_Some (p :: pages)) as [lo Hmin]; [done|].
    destruct (maximum_is_Some (p :: pages)) as [hi Hmax]; [done|].
    exists lo, hi. by apply convert_ocr_events.
Qed.

Lemma convert_ocr_calls_rasteriser E pdf_bytes lang_code pages_to_convert lo hi :
  minimum pages_to_convert = Some lo →
  maximum pages_to_convert = Some hi →
  CallPdf2Image pdf_bytes (lo + 1) (hi + 1) ∈
    trace (convert_ocr E pdf_bytes lang_code pages_to_convert).
Proof.
  intros Hmin Hmax. unfold convert_ocr.
  rewrite trace_bind. cbn [show emit trace fst snd]. cbn zeta.
  unfold py_min, py_max. rewrite (minimum_shift _ _ Hmin), bind_ret_l.
  rewrite (maximum_shift _ _ Hmax), bind_ret_l.
  rewrite trace_bind. unfold call_pdf2image. cbn [trace fst snd].
  right. left.
Qed.




Lemma selected_strategy_no_success E modo_conversion pdf_bytes lang pages :
  Forall no_success (trace (selected_strategy E modo_conversion pdf_bytes lang pages)).
Proof.
  unfold selected_strategy. destruct (bool_decide _).
  - unfold convert_digital, call_pdf2docx, trace. cbn [fst]. by repeat constructor.
  - destruct (convert_ocr_events_of_any E pdf_bytes lang pages) as (lo & hi & Hocr).
    eapply Forall_impl; [exact Hocr|]. intros ev. apply ocr_event_no_success.
Qed.




(** X15.  When the strategy of the selected mode raises, the exception does
    not leave the request: the request returns, having shown the critical
    error and the detail of the exception, and neither the success message
    nor a download button appears anywhere. *)
Theorem handle_request_failure E file_name pdf_bytes page_range_str modo_conversion lang
    tr0 pages_list tr1 e :
  modo_conversion ∈ mode_options →
  parse_page_range E page_range_str 500 = (tr0, Returns pages_list) →
  pages_list ≠ [] →
  selected_strategy E modo_conversion pdf_bytes lang pages_list = (tr1, Raises e) →
  ∃ hints,
    handle_request E file_name pdf_bytes page_range_str modo_conversion lang =
      (tr0 ++ [Show Page Text (msg_pages pages_list);
               Show Page Info (msg_start modo_conversion)] ++ tr1 ++
       [Show Page Error msg_critical; Show Page Error (msg_detail e)] ++ hints,
       Returns tt) ∧
    Forall no_success
      (trace (handle_request E file_name pdf_bytes page_range_str modo_conversion lang)).
Proof.
  intros Hmode Hparse Hne Hstrategy.
  pose proof (selected_strategy_no_success E modo_conversion pdf_bytes lang pages_list)
    as Hquiet.
  rewrite (handle_request_selected E _ _ _ _ _ tr0 pages_list), Hstrategy by done.
  rewrite Hstrategy in Hquiet. unfold trace in *. cbn [fst] in *.
  assert (Htr0 : Forall no_success tr0).
  { destruct (parse_page_range_result E page_range_str 500)
      as (tr & pages & Hparse' & Htr & _ & _).
    rewrite Hparse in Hparse'. injection Hparse' as -> _.
    destruct Htr as [-> | ->]; by repeat constructor. }
  unfold report_failure.
  destruct (PyStr.contains "tesseract" _), (_ || _); cbn;
    eexists; (split; [reflexivity|]);
    repeat first [apply Forall_app; split|apply Forall_cons; split|apply Forall_nil];
    done.
Qed.

Lemma handle_request_failure_witness :
  ∃ hints,
    handle_request
      {| max_str_digits := 4300; which := λ _, None;
         pdf2docx := λ _ _, Raises (LibraryError "damaged file");
         convert_from_bytes := λ _ _ _, Returns []; image_to_string := λ _ _, Returns ""%string;
         docx_text := λ _, Returns tt; docx_save := λ _, []; splitext_root := λ name, name |}
      "a.pdf" [] "2" label_digital "spa" =
      ([] ++ [Show Page Text (msg_pages [1]); Show Page Info (msg_start label_digital)] ++
       [CallPdf2Docx [] [1]] ++
       [Show Page Error msg_critical;
        Show Page Error (msg_detail (LibraryError "damaged file"))] ++ hints,
       Returns tt) ∧
    Forall no_success
      (trace (handle_request
                {| max_str_digits := 4300; which := λ _, None;
                   pdf2docx := λ _ _, Raises (LibraryError "damaged file");
                   convert_from_bytes := λ _ _ _, Returns [];
                   image_to_string := λ _ _, Returns ""%string;
                   docx_text := λ _, Returns tt; docx_save := λ _, []; splitext_root := λ name, name |}
                "a.pdf" [] "2" label_digital "spa")).
Proof.
  apply (handle_request_failure _ "a.pdf" [] "2" label_digital "spa" [] [1]
           [CallPdf2Docx [] [1]] (LibraryError "damaged file")).
  - left.
  - vm_compute. reflexivity.
  - discriminate.
  - vm_compute. reflexivity.
Defined.

(** X16.  When every token typed is numeric and none lies within
    [[1, 500]], the page list is empty: the request shows the message on the
    invalid or empty range and stops; no library is called and nothing is
    offered for download. *)
Theorem handle_request_nothing_selected E file_name pdf_bytes page_range_str
    modo_conversion lang toks :
  page_range_str ≠ EmptyString →
  Forall2 (λ part tok, read_token E part = Some tok) (PyStr.split "," page_range_str) toks →
  Forall (λ tok, ¬ valid_token 500 tok) toks →
  handle_request E file_name pdf_bytes page_range_str modo_conversion lang =
    ([Show Page Error msg_no_pages], Returns tt).
Proof.
  intros Hs Hread Hnone.
  destruct (parse_page_range_tokens E page_range_str 500 toks Hs Hread)
    as (pages & Hrun & _ & Hpages).
  assert (pages = []) as ->.
  { destruct pages as [|x pages]; [done|].
    destruct (proj1 (Hpages x)) as (tok & Hin & Hvalid & _); [left|].
    rewrite Forall_forall in Hnone. by destruct (Hnone tok Hin). }
  by rewrite (handle_request_no_pages _ _ _ _ _ _ _ Hrun).
Qed.

Lemma handle_request_nothing_selected_witness :
  handle_request sample_env "a.pdf" [] "0,501-502,9-8" label_escaneado "spa" =
    ([Show Page Error msg_no_pages], Returns tt).
Proof.
  apply (handle_request_nothing_selected sample_env "a.pdf" [] "0,501-502,9-8"
           label_escaneado "spa" [Single 0; Span 501 502; Span 9 8]).
  - discriminate.
  - repeat constructor.
  - repeat constructor; simpl; lia.
Defined.

(** X17.  A range left blank, or one with a part that is not numeric,
    stands for the first 500 pages whatever the length of the document: in
    digital mode pdf2docx is given the pages 0 to 499, in scanned mode the
    rasteriser is asked for the pages 1 to 500. *)
Theorem handle_request_all_pages E file_name pdf_bytes page_range_str lang :
  page_range_str = EmptyString ∨
  (∃ part, part ∈ PyStr.split "," page_range_str ∧ read_token E part = None) →
  CallPdf2Docx pdf_bytes (seqZ 0 500) ∈
    trace (handle_request E file_name pdf_bytes page_range_str label_digital lang) ∧
  CallPdf2Image pdf_bytes 1 500 ∈
    trace (handle_request E file_name pdf_bytes page_range_str label_escaneado lang).
Proof.
  intros Hall.
  assert (Hparse : ∃ tr0, parse_page_range E page_range_str 500 = (tr0, Returns (seqZ 0 500))).
  { destruct (decide (page_range_str = EmptyString)) as [->|Hs]; [by eexists|].
    destruct Hall as [?|(part & Hin & Hbad)]; [done|].
    eexists. by apply (fallback_of_bad_part E page_range_str 500 part). }
  destruct Hparse as [tr0 Hparse].
  assert (Hne : seqZ 0 500 ≠ []) by (by vm_compute).
  split.
  - rewrite (handle_request_selected E _ _ _ label_digital lang tr0 (seqZ 0 500))
      by (done || left).
    unfold selected_strategy. rewrite bool_decide_eq_true_2 by done.
    unfold convert_digital, call_pdf2docx.
    destruct (pdf2docx E pdf_bytes (seqZ 0 500)); unfold trace; cbn [fst];
      apply elem_of_app; right; right; right; left.
  - rewrite (handle_request_selected E _ _ _ label_escaneado lang tr0 (seqZ 0 500))
      by (done || (right; left)).
    unfold selected_strategy.
    rewrite bool_decide_eq_false_2 by (intros Heq; by apply labels_differ).
    pose proof (convert_ocr_calls_rasteriser E pdf_bytes lang (seqZ 0 500) 0 499
                  ltac:(by vm_compute) ltac:(by vm_compute)) as Hcall.
    change (0 + 1) with 1 in Hcall. change (499 + 1) with 500 in Hcall.
    destruct (convert_ocr E pdf_bytes lang (seqZ 0 500)) as [tr1 [docx|e]];
      unfold trace in *; cbn [fst] in *;
      apply elem_of_app; right; right; right; apply elem_of_app; by left.
Qed.

Lemma handle_request_all_pages_witness :
  CallPdf2Docx [] (seqZ 0 500) ∈
    trace (handle_request sample_env "a.pdf" [] "uno" label_digital "spa") ∧
  CallPdf2Image [] 1 500 ∈
    trace (handle_request sample_env "a.pdf" [] "uno" label_escaneado "spa").
Proof.
  apply (handle_request_all_pages sample_env "a.pdf" [] "uno" "spa").
  right. exists "uno"%string. split; [left|reflexivity].
Defined.

(** ** The hints of the [except] branch *)

Lemma str_lower_app s1 s2 : str_lower (s1 +:+ s2) = str_lower s1 +:+ str_lower s2.
Proof. induction s1 as [|c s1 IH]; simpl; [done|]. by rewrite IH. Qed.

Lemma starts_with_app p s : PyStr.starts_with p (p +:+ s) = true.
Proof.
  induction p as [|c p IH]; simpl; [by destruct s|]. by rewrite Ascii.eqb_refl, IH.
Qed.

Lemma contains_app needle before after :
  PyStr.contains needle (before +:+ needle +:+ after) = true.
Proof.
  induction before as [|c before IH].
  - change (EmptyString +:+ needle +:+ after) with (needle +:+ after).
    destruct (needle +:+ after) eqn:Heq; simpl; rewrite <- Heq;
      by rewrite starts_with_app.
  - change (String c before +:+ needle +:+ after)
      with (String c (before +:+ needle +:+ after)).
    cbn [PyStr.contains]. rewrite IH. apply orb_true_r.
Qed.

(** X18.  The hints do not depend on the letter case of the exception's
    message: if the message holds the word tesseract in any mix of capitals
    and small letters the Tesseract hint is shown, and if it holds poppler
    or pdftoppm in any such mix the Poppler hint is shown. *)
Theorem report_failure_hints_any_case e before word after :
  exn_str e = before +:+ word +:+ after →
  (str_lower word = "tesseract"%string →
   Show Page Error (msg_hint "Tesseract") ∈ trace (report_failure e)) ∧
  (str_lower word = "poppler"%string ∨ str_lower word = "pdftoppm"%string →
   Show Page Error (msg_hint "Poppler") ∈ trace (report_failure e)).
Proof.
  intros Hstr. unfold report_failure. rewrite Hstr, !str_lower_app. split.
  - intros ->. rewrite contains_app.
    destruct (_ || _); cbn; set_solver.
  - intros Hword.
    assert (PyStr.contains "poppler" (str_lower before +:+ str_lower word +:+ str_lower after)
            || PyStr.contains "pdftoppm"
                 (str_lower before +:+ str_lower word +:+ str_lower after) = true) as ->.
    { destruct Hword as [-> | ->]; rewrite contains_app; [done|apply orb_true_r]. }
    destruct (PyStr.contains "tesseract" _); cbn; set_solver.
Qed.

Lemma report_failure_hints_any_case_witness :
  (str_lower "TesseracT" = "tesseract"%string →
   Show Page Error (msg_hint "Tesseract") ∈
     trace (report_failure (LibraryError "TesseracT Not Found"))) ∧
  (str_lower "TesseracT" = "poppler"%string ∨ str_lower "TesseracT" = "pdftoppm"%string →
   Show Page Error (msg_hint "Poppler") ∈
     trace (report_failure (LibraryError "TesseracT Not Found"))).
Proof.
  apply (report_failure_hints_any_case (LibraryError "TesseracT Not Found")
           "" "TesseracT" " Not Found").
  reflexivity.
Defined.

(** * Further properties of the sidebar and of the page-count check *)

(** X19.  When both binaries are on the path the sidebar runs to its end
    with the mode selector enabled: it shows neither an error nor the
    warning that the OCR mode is disabled. *)
Theorem both_binaries_enable_ocr E answer lang_answer tesseract_path poppler_path :
  which E "tesseract" = Some tesseract_path →
  which E "pdftoppm" = Some poppler_path →
  ∃ tr result, sidebar E answer lang_answer = (tr, Returns result) ∧
    Radio "Selecciona el tipo de PDF:" mode_options 0 false ∈ tr ∧
    Forall (λ ev, (∀ label options index, ev ≠ Radio label options index true) ∧
                  (∀ text, ev ≠ Show Sidebar Error text) ∧
                  (∀ text, ev ≠ Show Sidebar Warning text)) tr.
Proof.
  intros Ht Hp. unfold sidebar, system_check, mode_selector, ocr_options.
  rewrite Ht, Hp.
  cbv [bind show emit ret is_not_none fst snd negb andb app].
  destruct (PyStr.contains "Escaneado" answer);
    (eexists _, _; split; [reflexivity|]);
    (split; [set_solver|]); by repeat constructor.
Qed.

Lemma both_binaries_enable_ocr_witness :
  ∃ tr result,
    sidebar {| max_str_digits := 4300; which := λ name, Some ("/usr/bin/" +:+ name);
               pdf2docx := λ pdf _, Returns pdf; convert_from_bytes := λ _ _ _, Returns [];
               image_to_string := λ _ _, Returns ""%string; docx_text := λ _, Returns tt; docx_save := λ _, [];
               splitext_root := λ name, name |} label_escaneado "eng" =
      (tr, Returns result) ∧
    Radio "Selecciona el tipo de PDF:" mode_options 0 false ∈ tr ∧
    Forall (λ ev, (∀ label options index, ev ≠ Radio label options index true) ∧
                  (∀ text, ev ≠ Show Sidebar Error text) ∧
                  (∀ text, ev ≠ Show Sidebar Warning text)) tr.
Proof.
  apply (both_binaries_enable_ocr _ label_escaneado "eng" "/usr/bin/tesseract"
           "/usr/bin/pdftoppm"); reflexivity.
Defined.

(** X20.  The language follows the mode: with the digital option the
    sidebar displays no language selector and the language is [spa]
    whatever the selector would answer; with the scanned option the selector
    is displayed and its answer is the language. *)
Theorem sidebar_language E answer lang_answer :
  answer ∈ mode_options →
  ∃ tr, sidebar E answer lang_answer =
          (tr, Returns (answer, if bool_decide (answer = label_escaneado)
                                then lang_answer else "spa"%string)) ∧
    ((∃ label options help, Selectbox label options help ∈ tr) ↔ answer = label_escaneado).
Proof.
  intros Hmode. unfold sidebar, system_check, mode_selector, ocr_options.
  apply elem_of_cons in Hmode as [->|Hmode].
  - rewrite bool_decide_eq_false_2 by apply labels_differ.
    destruct (which E "tesseract"), (which E "pdftoppm");
      cbv [bind show emit ret is_not_none fst snd negb andb app];
      rewrite (proj2 label_digital_tests);
      (eexists; split; [reflexivity|]);
      (split; [|intros Heq; by destruct (labels_differ Heq)]);
      intros (label & options & help & Hin);
      repeat (apply elem_of_cons in Hin as [Hin|Hin]; [done|]);
      by apply elem_of_nil in Hin.
  - apply list_elem_of_singleton in Hmode as ->.
    rewrite bool_decide_eq_true_2 by done.
    destruct (which E "tesseract"), (which E "pdftoppm");
      cbv [bind show emit ret is_not_none fst snd negb andb app];
      rewrite (proj2 label_escaneado_tests);
      (eexists; split; [reflexivity|]); (split; [done|]); intros _;
      do 3 eexists; repeat first [left|right].
Qed.

Lemma sidebar_language_witness :
  ∃ tr, sidebar sample_env label_digital "eng" =
          (tr, Returns (label_digital, if bool_decide (label_digital = label_escaneado)
                                       then "eng"%string else "spa"%string)) ∧
    ((∃ label options help, Selectbox label options help ∈ tr) ↔
     label_digital = label_escaneado).
Proof.
  apply (sidebar_language sample_env label_digital "eng"). left.
Defined.

(** X21.  The check of the uploaded file never raises.  It leaves
    [max_pages] at 500 exactly when Poppler was found and the rasteriser
    returned for the first page; otherwise [max_pages] is 0, with an error
    message if the rasteriser raised, and without any call to the
    rasteriser if Poppler was not found. *)
Theorem page_count_check_result E poppler_ok pdf_bytes :
  ∃ tr max_pages, page_count_check E poppler_ok pdf_bytes = (tr, Returns max_pages) ∧
    (max_pages = 500 ∨ max_pages = 0) ∧
    (max_pages = 500 ↔
     poppler_ok = true ∧ ∃ images, convert_from_bytes E pdf_bytes 1 1 = Returns images) ∧
    (poppler_ok = false → tr = []) ∧
    (∀ e, poppler_ok = true → convert_from_bytes E pdf_bytes 1 1 = Raises e →
          tr = [CallPdf2Image pdf_bytes 1 1; Show Page Error (msg_precheck_failed e)]).
Proof.
  unfold page_count_check. destruct poppler_ok.
  - unfold call_pdf2image.
    destruct (convert_from_bytes E pdf_bytes 1 1) as [images|e] eqn:Hcall;
      cbv [try_except bind show emit ret app];
      eexists _, _; (split; [reflexivity|]).
    + split; [by left|]. split; [split; [intros _; split; [done|by eexists]|done]|].
      split; [done|]. intros e _ [=].
    + split; [by right|]. split; [|split; [done|by intros e' _ [= ->]]].
      split; [done|]. by intros [_ [images [=]]].
  - exists [], 0. split; [done|]. split; [by right|].
    split; [|done]. split; [done|]. by intros [[=] _].
Qed.
